(** * go-js-dom: typed facades over a host-owned object graph

    A shallow embedding of the wrapping core of the [dom] package
    (type-tag dispatch, snapshot conversion of host collections,
    cross-reference resolution, the [TokenList] abstraction and the
    event-listener adapters), in the three generations the sources
    contain:

    - [GopherJS1]: [src/dom.go], dispatch on the printable name of the
      host constructor;
    - [GopherJS2]: [src/unnamed/part_001], dispatch on the identity of
      the host constructor;
    - [V2]: [src/v2/dom_go113.go] with the events of
      [src/unnamed/part_000], written against [syscall/js].

    [src/v2/dom_go113.go] holds the code twice; in the second copy (from
    its second [package dom] line on) the functions embedded here are the
    same, except that wrapHTMLElement has no HTMLTemplateElement arm and
    that the listener adapter is a plain Go closure, as in part_001.

    The host (the JavaScript object graph and the [js] bridge package) is
    not part of the package; it is modelled under "Host model" below as a
    heap of objects with named properties, indexed elements and pure
    methods. *)

From Stdlib Require Import ZArith String List Lia.
From stdpp Require Import base option gmap strings pretty list.

Open Scope string_scope.
Open Scope list_scope.
Open Scope Z_scope.

(** ** Results of Go code that may panic *)

(** What stops a call instead of a normal return. *)
Inductive Fault : Type :=
| HostTypeError                 (* the host primitive threw: property or
                                   method access on something that has none *)
| GoPanic (msg : string)        (* an explicit [panic(msg)] of the package *)
| TypeAssertionFailed.          (* a type assertion on a value of another dynamic type *)

Inductive Res (A : Type) : Type :=
| Ok (a : A)
| Panic (e : Fault).
Arguments Ok {A} a.
Arguments Panic {A} e.

Definition bind {A B} (m : Res A) (k : A -> Res B) : Res B :=
  match m with
  | Ok a => k a
  | Panic e => Panic e
  end.

Notation "'let!' x ':=' m 'in' k" := (bind m (fun x => k))
  (at level 10, x name, m at level 200, k at level 200, only parsing).

Definition is_panic {A} (r : Res A) : Prop :=
  match r with Ok _ => False | Panic _ => True end.

(** ** Host model *)

Definition addr := nat.

(** A [js.Value] / [*js.Object], the handle to a host object or a host
    primitive.  Equality of handles is host identity. *)
Inductive Value : Type :=
| Undefined
| Null
| Num (n : Z)
| Str (s : string)
| Ref (a : addr)          (* a host object *)
| GoFunc (id : nat).      (* a host function standing for a Go closure *)

Global Instance Value_eq_dec : EqDecision Value.
Proof. solve_decision. Defined.

(** A host object: named properties, integer-indexed elements (what
    [o.Index(i)] reads) and methods.  Methods are pure functions of their
    arguments; the two methods with an effect on the host, addEventListener
    and removeEventListener, are modelled apart (see [World]). *)
Record JSObject : Type := mkObject {
  props   : gmap string Value;
  elems   : list Value;
  methods : gmap string (list Value -> Value)
}.

Definition empty_object : JSObject :=
  {| props := ∅; elems := []; methods := ∅ |}.

Record Host : Type := mkHost {
  heap   : gmap addr JSObject;
  global : addr                   (* js.Global() *)
}.

Definition object_at (σ : Host) (a : addr) : JSObject :=
  default empty_object (heap σ !! a).

(** [v.Get(p)]: a missing property reads as [Undefined]; reading a
    property of null or undefined throws in the host.  Reading from a
    number or a string throws under [syscall/js] ([Reflect.get] on a
    non-object) and is rendered so here; no property below depends on
    that case. *)
Definition Get (σ : Host) (v : Value) (p : string) : Res Value :=
  match v with
  | Ref a => Ok (default Undefined (props (object_at σ a) !! p))
  | GoFunc _ => Ok Undefined
  | _ => Panic HostTypeError
  end.

(** [js.Global().Get(p)]: the global object is an object, the read
    cannot fail. *)
Definition GlobalGet (σ : Host) (p : string) : Value :=
  default Undefined (props (object_at σ (global σ)) !! p).

(** [v.Set(p, x)]. *)
Definition Set_ (σ : Host) (v : Value) (p : string) (x : Value) : Res Host :=
  match v with
  | Ref a =>
      let o := object_at σ a in
      Ok {| heap := <[a := {| props := <[p := x]> (props o);
                              elems := elems o;
                              methods := methods o |}]> (heap σ);
            global := global σ |}
  | _ => Panic HostTypeError
  end.

(** [v.Call(m, args...)] for a pure host method. *)
Definition Call (σ : Host) (v : Value) (m : string) (args : list Value) : Res Value :=
  match v with
  | Ref a =>
      match methods (object_at σ a) !! m with
      | Some f => Ok (f args)
      | None => Panic HostTypeError
      end
  | _ => Panic HostTypeError
  end.

(** [v.Index(i)]. *)
Definition Index (σ : Host) (v : Value) (i : Z) : Res Value :=
  match v with
  | Ref a =>
      if Z.ltb i 0 then Ok Undefined
      else Ok (default Undefined (elems (object_at σ a) !! Z.to_nat i))
  | _ => Panic HostTypeError
  end.

(** [v.Int()]: the number held by [v].  On anything else [syscall/js]
    panics (GopherJS coerces; the properties below are about collections
    whose length is a number).  Host lengths are taken to fit Go's [int]. *)
Definition Int (v : Value) : Res Z :=
  match v with
  | Num n => Ok n
  | _ => Panic HostTypeError
  end.

(** [v.Length()]: the host's [length] property as an [int]. *)
Definition Length (σ : Host) (v : Value) : Res Z :=
  let! l := Get σ v "length" in Int l.

(** [v.String()] / [v.Str()]: the string held by [v], and the host's
    string coercion of anything else.  It never fails. *)
Definition JSString (v : Value) : string :=
  match v with
  | Str s => s
  | Undefined => "undefined"
  | Null => "null"
  | Num n => pretty n
  | Ref _ => "[object Object]"
  | GoFunc _ => "function"
  end.

(** [o == js.Null() || o == js.Undefined()], [o.IsNull() || o.IsUndefined()]. *)
Definition nullish (v : Value) : bool :=
  match v with
  | Null | Undefined => true
  | _ => false
  end.

(** [v.SetIndex(i, x)] on an array of fixed length (the data of an
    ImageData is a typed array): a write outside of it is ignored. *)
Definition SetIndex (σ : Host) (v : Value) (i : Z) (x : Value) : Res Host :=
  match v with
  | Ref a =>
      let ob := object_at σ a in
      Ok {| heap := <[a := {| props := props ob;
                              elems := if Z.ltb i 0 then elems ob
                                       else <[Z.to_nat i := x]> (elems ob);
                              methods := methods ob |}]> (heap σ);
            global := global σ |}
  | _ => Panic HostTypeError
  end.

(** [v.Get(p).Int()] *)
Definition int_prop (σ : Host) (v : Value) (p : string) : Res Z :=
  let! x := Get σ v p in Int x.

(** ** Go integers

    [int] has 32 bits under GopherJS and 64 under wasm; the arithmetic of
    the package is written here with the 32-bit wrap-around, and the
    properties about it are stated for sizes at which it does not wrap. *)
Definition wrap_int (z : Z) : Z := (z + 2 ^ 31) mod 2 ^ 32 - 2 ^ 31.

Definition int_add (a b : Z) : Z := wrap_int (a + b).
Definition int_mul (a b : Z) : Z := wrap_int (a * b).

(** The conversion [uint8(n)]. *)
Definition uint8 (z : Z) : Z := z mod 256.

(** ** Go slices

    [var out []T] is the nil slice; [append] always returns a non-nil
    one.  [None] is the nil slice, [Some l] a slice with backing array
    [l]. *)
Definition slice (A : Type) : Type := option (list A).

Definition nil_slice {A} : slice A := None.

Definition append {A} (s : slice A) (x : A) : slice A :=
  match s with
  | None => Some [x]
  | Some l => Some (l ++ [x])
  end.

Definition contents {A} (s : slice A) : list A :=
  match s with
  | None => []
  | Some l => l
  end.

Definition len {A} (s : slice A) : Z := Z.of_nat (length (contents s)).

Definition is_nil {A} (s : slice A) : bool :=
  match s with
  | None => true
  | Some _ => false
  end.

(** [for i := from; i < from + n; i++ { out = append(out, body(i)) }]:
    [n] iterations, each of which may panic. *)
Fixpoint append_loop {A} (body : Z -> Res A) (n : nat) (from : Z)
    (out : slice A) : Res (slice A) :=
  match n with
  | O => Ok out
  | S n' =>
      let! x := body from in
      append_loop body n' (from + 1) (append out x)
  end.

(** [var out []T; for i := 0; i < length; i++ { out = append(out, body(i)) }; return out] *)
Definition collect {A} (length : Z) (body : Z -> Res A) : Res (slice A) :=
  append_loop body (Z.to_nat length) 0 nil_slice.

(** ** Facades

    The capability layers are structs embedding one another; an interface
    value is [option] of an inductive whose constructors are the dynamic
    types that the factories can produce ([None] is the nil interface). *)

Record BasicNode : Type := mkBasicNode { node_value : Value }.
Record BasicElement : Type := mkBasicElement { element_node : BasicNode }.
Record BasicHTMLElement : Type := mkBasicHTMLElement { html_element : BasicElement }.
Record URLUtils : Type := mkURLUtils { url_value : Value }.
Record BasicEvent : Type := mkBasicEvent { event_value : Value }.

(** The concrete element types, one per arm of [wrapHTMLElement]. *)
Inductive ElementType : Type :=
  | HTMLAnchorElement | HTMLAppletElement | HTMLAreaElement
  | HTMLAudioElement | HTMLBaseElement | HTMLBodyElement | HTMLBRElement
  | HTMLButtonElement | HTMLCanvasElement | HTMLDataElement
  | HTMLDataListElement | HTMLDirectoryElement | HTMLDivElement
  | HTMLDListElement | HTMLEmbedElement | HTMLFieldSetElement
  | HTMLFontElement | HTMLFormElement | HTMLFrameElement
  | HTMLFrameSetElement | HTMLHeadElement | HTMLHeadingElement
  | HTMLHtmlElement | HTMLHRElement | HTMLIFrameElement | HTMLImageElement
  | HTMLInputElement | HTMLKeygenElement | HTMLLabelElement
  | HTMLLegendElement | HTMLLIElement | HTMLLinkElement | HTMLMapElement
  | HTMLMediaElement | HTMLMenuElement | HTMLMetaElement | HTMLMeterElement
  | HTMLModElement | HTMLObjectElement | HTMLOListElement
  | HTMLOptGroupElement | HTMLOptionElement | HTMLOutputElement
  | HTMLParagraphElement | HTMLParamElement | HTMLPreElement
  | HTMLProgressElement | HTMLQuoteElement | HTMLScriptElement
  | HTMLSelectElement | HTMLSourceElement | HTMLSpanElement
  | HTMLStyleElement | HTMLTableElement | HTMLTableCaptionElement
  | HTMLTableCellElement | HTMLTableDataCellElement
  | HTMLTableHeaderCellElement | HTMLTableColElement | HTMLTableRowElement
  | HTMLTableSectionElement | HTMLTemplateElement | HTMLTextAreaElement
  | HTMLTimeElement | HTMLTitleElement | HTMLTrackElement
  | HTMLUListElement | HTMLUnknownElement | HTMLVideoElement.

(** The name of the host constructor an arm of [wrapHTMLElement] compares
    with; in every arm it is the name of the Go type the arm builds. *)
Definition element_name (t : ElementType) : string :=
  match t with
  | HTMLAnchorElement => "HTMLAnchorElement"
  | HTMLAppletElement => "HTMLAppletElement"
  | HTMLAreaElement => "HTMLAreaElement"
  | HTMLAudioElement => "HTMLAudioElement"
  | HTMLBaseElement => "HTMLBaseElement"
  | HTMLBodyElement => "HTMLBodyElement"
  | HTMLBRElement => "HTMLBRElement"
  | HTMLButtonElement => "HTMLButtonElement"
  | HTMLCanvasElement => "HTMLCanvasElement"
  | HTMLDataElement => "HTMLDataElement"
  | HTMLDataListElement => "HTMLDataListElement"
  | HTMLDirectoryElement => "HTMLDirectoryElement"
  | HTMLDivElement => "HTMLDivElement"
  | HTMLDListElement => "HTMLDListElement"
  | HTMLEmbedElement => "HTMLEmbedElement"
  | HTMLFieldSetElement => "HTMLFieldSetElement"
  | HTMLFontElement => "HTMLFontElement"
  | HTMLFormElement => "HTMLFormElement"
  | HTMLFrameElement => "HTMLFrameElement"
  | HTMLFrameSetElement => "HTMLFrameSetElement"
  | HTMLHeadElement => "HTMLHeadElement"
  | HTMLHeadingElement => "HTMLHeadingElement"
  | HTMLHtmlElement => "HTMLHtmlElement"
  | HTMLHRElement => "HTMLHRElement"
  | HTMLIFrameElement => "HTMLIFrameElement"
  | HTMLImageElement => "HTMLImageElement"
  | HTMLInputElement => "HTMLInputElement"
  | HTMLKeygenElement => "HTMLKeygenElement"
  | HTMLLabelElement => "HTMLLabelElement"
  | HTMLLegendElement => "HTMLLegendElement"
  | HTMLLIElement => "HTMLLIElement"
  | HTMLLinkElement => "HTMLLinkElement"
  | HTMLMapElement => "HTMLMapElement"
  | HTMLMediaElement => "HTMLMediaElement"
  | HTMLMenuElement => "HTMLMenuElement"
  | HTMLMetaElement => "HTMLMetaElement"
  | HTMLMeterElement => "HTMLMeterElement"
  | HTMLModElement => "HTMLModElement"
  | HTMLObjectElement => "HTMLObjectElement"
  | HTMLOListElement => "HTMLOListElement"
  | HTMLOptGroupElement => "HTMLOptGroupElement"
  | HTMLOptionElement => "HTMLOptionElement"
  | HTMLOutputElement => "HTMLOutputElement"
  | HTMLParagraphElement => "HTMLParagraphElement"
  | HTMLParamElement => "HTMLParamElement"
  | HTMLPreElement => "HTMLPreElement"
  | HTMLProgressElement => "HTMLProgressElement"
  | HTMLQuoteElement => "HTMLQuoteElement"
  | HTMLScriptElement => "HTMLScriptElement"
  | HTMLSelectElement => "HTMLSelectElement"
  | HTMLSourceElement => "HTMLSourceElement"
  | HTMLSpanElement => "HTMLSpanElement"
  | HTMLStyleElement => "HTMLStyleElement"
  | HTMLTableElement => "HTMLTableElement"
  | HTMLTableCaptionElement => "HTMLTableCaptionElement"
  | HTMLTableCellElement => "HTMLTableCellElement"
  | HTMLTableDataCellElement => "HTMLTableDataCellElement"
  | HTMLTableHeaderCellElement => "HTMLTableHeaderCellElement"
  | HTMLTableColElement => "HTMLTableColElement"
  | HTMLTableRowElement => "HTMLTableRowElement"
  | HTMLTableSectionElement => "HTMLTableSectionElement"
  | HTMLTemplateElement => "HTMLTemplateElement"
  | HTMLTextAreaElement => "HTMLTextAreaElement"
  | HTMLTimeElement => "HTMLTimeElement"
  | HTMLTitleElement => "HTMLTitleElement"
  | HTMLTrackElement => "HTMLTrackElement"
  | HTMLUListElement => "HTMLUListElement"
  | HTMLUnknownElement => "HTMLUnknownElement"
  | HTMLVideoElement => "HTMLVideoElement"
  end.

(** How a concrete element struct holds the base layer [el]. *)
Inductive Layers : Type :=
| Embeds (el : BasicHTMLElement)
    (* &T{el}, &T{BasicHTMLElement: el} *)
| EmbedsMedia (el : BasicHTMLElement)
    (* &T{HTMLMediaElement: &HTMLMediaElement{BasicHTMLElement: el}} *)
| EmbedsURL (el : BasicHTMLElement) (u : URLUtils).
    (* &T{BasicHTMLElement: el, URLUtils: &URLUtils{Value: o}} *)

(** Non-nil values of the interfaces [HTMLElement] and [Element]. *)
Inductive HTMLElement : Type :=
| Basic (el : BasicHTMLElement)                 (* el itself *)
| Concrete (t : ElementType) (l : Layers).

Definition Element : Type := HTMLElement.

(** Non-nil values of the interface [Node]. *)
Inductive Node : Type :=
| Text (n : BasicNode)
| ElementNode (e : Element).

Definition base_layer (l : Layers) : BasicHTMLElement :=
  match l with
  | Embeds el | EmbedsMedia el | EmbedsURL el _ => el
  end.

Definition html_base (e : HTMLElement) : BasicHTMLElement :=
  match e with
  | Basic el => el
  | Concrete _ l => base_layer l
  end.

(** [Underlying()], promoted from [BasicNode] through every layer: the
    base Node capability, the handle the facade wraps. *)
Definition HTMLElement_Underlying (e : HTMLElement) : Value :=
  node_value (element_node (html_element (html_base e))).

Definition Node_Underlying (n : Node) : Value :=
  match n with
  | Text b => node_value b
  | ElementNode e => HTMLElement_Underlying e
  end.

(** el := &BasicHTMLElement{&BasicElement{&BasicNode{o}}} *)
Definition new_el (o : Value) : BasicHTMLElement :=
  mkBasicHTMLElement (mkBasicElement (mkBasicNode o)).

(** The arms of [wrapHTMLElement] in [src/dom.go] and in
    [src/unnamed/part_001], in source order. *)
Definition html_cases : list ElementType :=
  [ HTMLAnchorElement; HTMLAppletElement; HTMLAreaElement;
    HTMLAudioElement; HTMLBaseElement; HTMLBodyElement; HTMLBRElement;
    HTMLButtonElement; HTMLCanvasElement; HTMLDataElement;
    HTMLDataListElement; HTMLDirectoryElement; HTMLDivElement;
    HTMLDListElement; HTMLEmbedElement; HTMLFieldSetElement;
    HTMLFontElement; HTMLFormElement; HTMLFrameElement;
    HTMLFrameSetElement; HTMLHeadElement; HTMLHeadingElement;
    HTMLHtmlElement; HTMLHRElement; HTMLIFrameElement; HTMLImageElement;
    HTMLInputElement; HTMLKeygenElement; HTMLLabelElement;
    HTMLLegendElement; HTMLLIElement; HTMLLinkElement; HTMLMapElement;
    HTMLMediaElement; HTMLMenuElement; HTMLMetaElement; HTMLMeterElement;
    HTMLModElement; HTMLObjectElement; HTMLOListElement;
    HTMLOptGroupElement; HTMLOptionElement; HTMLOutputElement;
    HTMLParagraphElement; HTMLParamElement; HTMLPreElement;
    HTMLProgressElement; HTMLQuoteElement; HTMLScriptElement;
    HTMLSelectElement; HTMLSourceElement; HTMLSpanElement;
    HTMLStyleElement; HTMLTableElement; HTMLTableCaptionElement;
    HTMLTableCellElement; HTMLTableDataCellElement;
    HTMLTableHeaderCellElement; HTMLTableColElement; HTMLTableRowElement;
    HTMLTableSectionElement; HTMLTextAreaElement; HTMLTimeElement;
    HTMLTitleElement; HTMLTrackElement; HTMLUListElement;
    HTMLUnknownElement; HTMLVideoElement ].

(** The struct arms of [wrapHTMLElement] in [src/v2/dom_go113.go], in
    source order. *)
Definition html_cases_v2 : list ElementType :=
  [ HTMLAnchorElement; HTMLAppletElement; HTMLAreaElement;
    HTMLAudioElement; HTMLBaseElement; HTMLBodyElement; HTMLBRElement;
    HTMLButtonElement; HTMLCanvasElement; HTMLDataElement;
    HTMLDataListElement; HTMLDirectoryElement; HTMLDivElement;
    HTMLDListElement; HTMLEmbedElement; HTMLFieldSetElement;
    HTMLFontElement; HTMLFormElement; HTMLFrameElement;
    HTMLFrameSetElement; HTMLHeadElement; HTMLHeadingElement;
    HTMLHtmlElement; HTMLHRElement; HTMLIFrameElement; HTMLImageElement;
    HTMLInputElement; HTMLKeygenElement; HTMLLabelElement;
    HTMLLegendElement; HTMLLIElement; HTMLLinkElement; HTMLMapElement;
    HTMLMediaElement; HTMLMenuElement; HTMLMetaElement; HTMLMeterElement;
    HTMLModElement; HTMLObjectElement; HTMLOListElement;
    HTMLOptGroupElement; HTMLOptionElement; HTMLOutputElement;
    HTMLParagraphElement; HTMLParamElement; HTMLPreElement;
    HTMLProgressElement; HTMLQuoteElement; HTMLScriptElement;
    HTMLSelectElement; HTMLSourceElement; HTMLSpanElement;
    HTMLStyleElement; HTMLTableElement; HTMLTableCaptionElement;
    HTMLTableCellElement; HTMLTableDataCellElement;
    HTMLTableHeaderCellElement; HTMLTableColElement; HTMLTableRowElement;
    HTMLTableSectionElement; HTMLTemplateElement; HTMLTextAreaElement;
    HTMLTimeElement; HTMLTitleElement; HTMLTrackElement; HTMLUListElement;
    HTMLUnknownElement; HTMLVideoElement ].

(** The concrete event types, one per arm of [wrapEvent]. *)
Inductive EventType : Type :=
  | AnimationEvent | AudioProcessingEvent | BeforeInputEvent
  | BeforeUnloadEvent | BlobEvent | ClipboardEvent | CloseEvent
  | CompositionEvent | CSSFontFaceLoadEvent | CustomEvent
  | DeviceLightEvent | DeviceMotionEvent | DeviceOrientationEvent
  | DeviceProximityEvent | DOMTransactionEvent | DragEvent
  | EditingBeforeInputEvent | ErrorEvent | FocusEvent | GamepadEvent
  | HashChangeEvent | IDBVersionChangeEvent | KeyboardEvent
  | MediaStreamEvent | MessageEvent | MouseEvent | MutationEvent
  | OfflineAudioCompletionEvent | PageTransitionEvent | PointerEvent
  | PopStateEvent | ProgressEvent | RelatedEvent
  | RTCPeerConnectionIceEvent | SensorEvent | StorageEvent | SVGEvent
  | SVGZoomEvent | TimeEvent | TouchEvent | TrackEvent | TransitionEvent
  | UIEvent | UserProximityEvent | WheelEvent.

Definition event_name (t : EventType) : string :=
  match t with
  | AnimationEvent => "AnimationEvent"
  | AudioProcessingEvent => "AudioProcessingEvent"
  | BeforeInputEvent => "BeforeInputEvent"
  | BeforeUnloadEvent => "BeforeUnloadEvent"
  | BlobEvent => "BlobEvent"
  | ClipboardEvent => "ClipboardEvent"
  | CloseEvent => "CloseEvent"
  | CompositionEvent => "CompositionEvent"
  | CSSFontFaceLoadEvent => "CSSFontFaceLoadEvent"
  | CustomEvent => "CustomEvent"
  | DeviceLightEvent => "DeviceLightEvent"
  | DeviceMotionEvent => "DeviceMotionEvent"
  | DeviceOrientationEvent => "DeviceOrientationEvent"
  | DeviceProximityEvent => "DeviceProximityEvent"
  | DOMTransactionEvent => "DOMTransactionEvent"
  | DragEvent => "DragEvent"
  | EditingBeforeInputEvent => "EditingBeforeInputEvent"
  | ErrorEvent => "ErrorEvent"
  | FocusEvent => "FocusEvent"
  | GamepadEvent => "GamepadEvent"
  | HashChangeEvent => "HashChangeEvent"
  | IDBVersionChangeEvent => "IDBVersionChangeEvent"
  | KeyboardEvent => "KeyboardEvent"
  | MediaStreamEvent => "MediaStreamEvent"
  | MessageEvent => "MessageEvent"
  | MouseEvent => "MouseEvent"
  | MutationEvent => "MutationEvent"
  | OfflineAudioCompletionEvent => "OfflineAudioCompletionEvent"
  | PageTransitionEvent => "PageTransitionEvent"
  | PointerEvent => "PointerEvent"
  | PopStateEvent => "PopStateEvent"
  | ProgressEvent => "ProgressEvent"
  | RelatedEvent => "RelatedEvent"
  | RTCPeerConnectionIceEvent => "RTCPeerConnectionIceEvent"
  | SensorEvent => "SensorEvent"
  | StorageEvent => "StorageEvent"
  | SVGEvent => "SVGEvent"
  | SVGZoomEvent => "SVGZoomEvent"
  | TimeEvent => "TimeEvent"
  | TouchEvent => "TouchEvent"
  | TrackEvent => "TrackEvent"
  | TransitionEvent => "TransitionEvent"
  | UIEvent => "UIEvent"
  | UserProximityEvent => "UserProximityEvent"
  | WheelEvent => "WheelEvent"
  end.

Inductive EventLayers : Type :=
| EvEmbeds (ev : BasicEvent)       (* &T{ev}, &T{BasicEvent: ev} *)
| EvEmbedsUI (ev : BasicEvent).    (* &T{UIEvent: &UIEvent{ev}} *)

(** Non-nil values of the interface [Event]. *)
Inductive Event : Type :=
| BasicEv (ev : BasicEvent)                     (* ev itself *)
| ConcreteEv (t : EventType) (l : EventLayers).

Definition Event_Underlying (e : Event) : Value :=
  match e with
  | BasicEv ev => event_value ev
  | ConcreteEv _ (EvEmbeds ev) | ConcreteEv _ (EvEmbedsUI ev) => event_value ev
  end.

(** The arms of [wrapEvent], in source order; the three generations list
    the same constructors in the same order. *)
Definition event_cases : list EventType :=
  [ AnimationEvent; AudioProcessingEvent; BeforeInputEvent;
    BeforeUnloadEvent; BlobEvent; ClipboardEvent; CloseEvent;
    CompositionEvent; CSSFontFaceLoadEvent; CustomEvent; DeviceLightEvent;
    DeviceMotionEvent; DeviceOrientationEvent; DeviceProximityEvent;
    DOMTransactionEvent; DragEvent; EditingBeforeInputEvent; ErrorEvent;
    FocusEvent; GamepadEvent; HashChangeEvent; IDBVersionChangeEvent;
    KeyboardEvent; MediaStreamEvent; MessageEvent; MouseEvent;
    MutationEvent; OfflineAudioCompletionEvent; PageTransitionEvent;
    PointerEvent; PopStateEvent; ProgressEvent; RelatedEvent;
    RTCPeerConnectionIceEvent; SensorEvent; StorageEvent; SVGEvent;
    SVGZoomEvent; TimeEvent; TouchEvent; TrackEvent; TransitionEvent;
    UIEvent; UserProximityEvent; WheelEvent ].

(** ** The switch statements

    [switch c { case js.Global().Get(n1): ... }]: the cases are tried from
    the top and the first whose host constructor is identical to [c] is
    taken. *)
Fixpoint switch_constructor {T} (name : T -> string) (σ : Host) (c : Value)
    (cases : list T) : option T :=
  match cases with
  | [] => None
  | t :: rest =>
      if decide (c = GlobalGet σ (name t)) then Some t
      else switch_constructor name σ c rest
  end.

(** [switch name { case "n1": ... }] on the printable name. *)
Fixpoint switch_name {T} (name : T -> string) (s : string)
    (cases : list T) : option T :=
  match cases with
  | [] => None
  | t :: rest =>
      if decide (s = name t) then Some t
      else switch_name name s rest
  end.

(** [for _, obj := range objs { out = append(out, f(obj)) }] *)
Fixpoint append_each {A B} (f : A -> Res B) (objs : list A) (out : slice B)
    : Res (slice B) :=
  match objs with
  | [] => Ok out
  | obj :: rest =>
      let! x := f obj in
      append_each f rest (append out x)
  end.

(** What a snapshot of a collection of length [N] is: a slice of length
    [N] whose entry [i] is [f i], and which is the nil slice exactly when
    [N] is zero. *)
Definition snapshot_of {A} (N : Z) (f : Z -> A) (r : Res (slice A)) : Prop :=
  exists s, r = Ok s
    /\ len s = N
    /\ (forall i, 0 <= i < N -> contents s !! Z.to_nat i = Some (f i))
    /\ (is_nil s = true <-> N = 0).

(** [out := make([]T, n)]: a non-nil slice of [n] zero values. *)
Definition make {A} (zero : A) (n : nat) : list A := replicate n zero.

(** [for i, x := range xs { out[i] = f(x) }], from index [i] on. *)
Fixpoint assign_each {A B} (f : A -> Res B) (xs : list A) (i : nat)
    (out : list B) : Res (list B) :=
  match xs with
  | [] => Ok out
  | x :: rest =>
      let! y := f x in
      assign_each f rest (S i) (<[i := y]> out)
  end.

(** [for i := range out { out[i] = f(i) }]: [n] more indexes from [i] on. *)
Fixpoint assign_range {B} (f : Z -> Res B) (n : nat) (i : nat)
    (out : list B) : Res (list B) :=
  match n with
  | O => Ok out
  | S n' =>
      let! y := f (Z.of_nat i) in
      assign_range f n' (S i) (<[i := y]> out)
  end.

(** [strings.Join(elems, sep)], from the documentation of the package. *)
Fixpoint Join (elems : list string) (sep : string) : string :=
  match elems with
  | [] => ""
  | [x] => x
  | x :: rest => x +:+ sep +:+ Join rest sep
  end.

(** [time.Unix(sec, nsec)]: the instant [sec] seconds and [nsec]
    nanoseconds after the epoch; [nsec] may lie outside of a second. *)
Inductive Time : Type := Unix (sec nsec : Z).

(** [t.UnixNano()], without the 64-bit limit. *)
Definition UnixNano (t : Time) : Z :=
  match t with Unix sec nsec => sec * 1000000000 + nsec end.

(** ** TokenList, the struct *)

Record TokenList : Type := mkTokenList {
  dtl : Value;     (* the underlying DOMTokenList *)
  o   : Value;     (* the object to which the DOMTokenList belongs *)
  sa  : string     (* the name of the corresponding string attribute,
                      empty if there isn't one *)
}.

(** ** Event listeners

    The caller's [listener func(Event)] is opaque: it is known by its
    identity, and a call of it is recorded as an [Invocation]. *)

Definition Handler : Type := nat.

Record Invocation : Type := mkInvocation {
  invoked  : Handler;
  argument : option Event
}.

(** One entry of a host object's event listener list. *)
Record Listener : Type := mkListener {
  target   : addr;
  type_    : string;
  callback : Value;
  capture  : bool
}.

Global Instance Listener_eq_dec : EqDecision Listener.
Proof. solve_decision. Defined.

(** The host together with the Go side of the bridge: [funcs] maps the
    identity of a host function made from a Go closure to the handler the
    closure captured, [nextFuncID] is the next unused identity. *)
Record World : Type := mkWorld {
  host       : Host;
  registered : list Listener;
  funcs      : gmap nat Handler;
  nextFuncID : nat
}.

(** A new Go closure [func(o) { listener(wrapEvent(o)) }]: every
    evaluation of the function literal (every [js.FuncOf]) has an identity
    of its own. *)
Definition new_closure (w : World) (listener : Handler) : nat * World :=
  (nextFuncID w,
   {| host := host w;
      registered := registered w;
      funcs := <[nextFuncID w := listener]> (funcs w);
      nextFuncID := S (nextFuncID w) |}).

(** The host's addEventListener, as the DOM standard has it: a callback
    that is null is ignored, and so is an entry already in the list. *)
Definition host_addEventListener (w : World) (l : Listener) : World :=
  if nullish (callback l) then w
  else if decide (l ∈ registered w) then w
  else {| host := host w;
          registered := registered w ++ [l];
          funcs := funcs w;
          nextFuncID := nextFuncID w |}.

(** The host's removeEventListener: the entry with this type, callback
    and capture flag leaves the list, if there is one. *)
Definition host_removeEventListener (w : World) (l : Listener) : World :=
  {| host := host w;
     registered := filter (fun x => x <> l) (registered w);
     funcs := funcs w;
     nextFuncID := nextFuncID w |}.

(** n.Call("addEventListener", typ, fn, useCapture) *)
Definition Call_addEventListener (w : World) (n : Value) (typ : string)
    (fn : Value) (useCapture : bool) : Res World :=
  match n with
  | Ref a => Ok (host_addEventListener w (mkListener a typ fn useCapture))
  | _ => Panic HostTypeError
  end.

(** n.Call("removeEventListener", typ, fn, useCapture) *)
Definition Call_removeEventListener (w : World) (n : Value) (typ : string)
    (fn : Value) (useCapture : bool) : Res World :=
  match n with
  | Ref a => Ok (host_removeEventListener w (mkListener a typ fn useCapture))
  | _ => Panic HostTypeError
  end.

(** The identities in use are below [nextFuncID]: the next closure is
    new to the host and to the table of closures. *)
Definition fresh_ids (w : World) : Prop :=
  (forall l id, l ∈ registered w -> callback l = GoFunc id -> (id < nextFuncID w)%nat)
  /\ (forall id, is_Some (funcs w !! id) -> (id < nextFuncID w)%nat).

Section Dispatch.

(** The event factory of the generation at hand. *)
Variable wrapEvent : Host -> Value -> Res (option Event).

(** The adapter body: [listener(wrapEvent(o))]. *)
Definition adapter (σ : Host) (listener : Handler) (arg : Value) : Res Invocation :=
  let! ev := wrapEvent σ arg in
  Ok (mkInvocation listener ev).

(** The host calls the callbacks of [ls] in order with the event object
    [arg].  A callback that is no live Go closure (a foreign function, or
    a released [js.Func]) invokes no handler. *)
Fixpoint deliver (w : World) (ls : list Listener) (arg : Value)
    : Res (list Invocation) :=
  match ls with
  | [] => Ok []
  | l :: rest =>
      match callback l with
      | GoFunc id =>
          match funcs w !! id with
          | Some h =>
              let! i := adapter (host w) h arg in
              let! r := deliver w rest arg in
              Ok (i :: r)
          | None => deliver w rest arg
          end
      | _ => deliver w rest arg
      end
  end.

(** An event of type [typ] fired at the object [a]: the invocations of
    caller handlers it leads to. *)
Definition fire (w : World) (a : addr) (typ : string) (arg : Value)
    : Res (list Invocation) :=
  deliver w (filter (fun l => target l = a /\ type_ l = typ) (registered w)) arg.

End Dispatch.

(** ** src/v2/dom_go113.go and the events of src/unnamed/part_000 *)

Module V2.

(** toString returns the string representation of o. If o is nil or
    undefined, the empty string will be returned instead. *)
Definition toString (o : Value) : string :=
  if nullish o then "" else JSString o.

Definition elementConstructor (σ : Host) (o : Value) : Res Value :=
  let! n := Get σ o "node" in
  if decide (n <> Undefined) then
    (* Support elements wrapped in Polymer's DOM APIs. *)
    Get σ n "constructor"
  else Get σ o "constructor".

Definition arrayToObjects (σ : Host) (o : Value) : Res (slice Value) :=
  let! n := Length σ o in
  collect n (fun i => Index σ o i).

Definition nodeListToObjects (σ : Host) (o : Value) : Res (slice Value) :=
  let! c := Get σ o "constructor" in
  if decide (c = GlobalGet σ "Array") then
    (* Support Polymer's DOM APIs, which uses Arrays instead of NodeLists *)
    arrayToObjects σ o
  else
    let! l := Get σ o "length" in
    let! length := Int l in
    collect length (fun i => Call σ o "item" [Num i]).

(** The composite literal of each struct arm. *)
Definition layers (t : ElementType) (el : BasicHTMLElement) (o : Value) : Layers :=
  match t with
  | HTMLAnchorElement | HTMLAreaElement => EmbedsURL el (mkURLUtils o)
  | HTMLAudioElement | HTMLVideoElement => EmbedsMedia el
  | _ => Embeds el
  end.

Definition wrapHTMLElement (σ : Host) (o : Value) : Res (option HTMLElement) :=
  if nullish o then Ok None
  else
    let el := new_el o in
    let! c := elementConstructor σ o in
    match switch_constructor element_name σ c html_cases_v2 with
    | Some t => Ok (Some (Concrete t (layers t el o)))
    | None =>
        if decide (c = GlobalGet σ "HTMLElement") then Ok (Some (Basic el))
        else (* default *) Ok (Some (Basic el))
    end.

Definition wrapElement (σ : Host) (o : Value) : Res (option Element) :=
  if nullish o then Ok None
  else
    let! _c := elementConstructor σ o in
    (* TODO all the non-HTML cases; default: *)
    wrapHTMLElement σ o.

Definition wrapNode (σ : Host) (o : Value) : Res (option Node) :=
  if nullish o then Ok None
  else
    let! c := elementConstructor σ o in
    if decide (c = GlobalGet σ "Text") then Ok (Some (Text (mkBasicNode o)))
    else
      let! e := wrapElement σ o in
      Ok (ElementNode <$> e).

Definition nodeListToNodes (σ : Host) (o : Value) : Res (slice (option Node)) :=
  let! objs := nodeListToObjects σ o in
  append_each (wrapNode σ) (contents objs) nil_slice.

Definition nodeListToElements (σ : Host) (o : Value) : Res (slice (option Element)) :=
  let! objs := nodeListToObjects σ o in
  append_each (wrapElement σ) (contents objs) nil_slice.

Definition nodeListToHTMLElements (σ : Host) (o : Value)
    : Res (slice (option HTMLElement)) :=
  let! objs := nodeListToObjects σ o in
  append_each (wrapHTMLElement σ) (contents objs) nil_slice.

(** The type assertion to a pointer to HTMLFormElement yields the
    struct behind the facade. *)
Definition getForm (σ : Host) (o : Value) : Res (option Layers) :=
  let! f := Get σ o "form" in
  let! form := wrapHTMLElement σ f in
  match form with
  | None => Ok None
  | Some (Concrete HTMLFormElement l) => Ok (Some l)
  | Some _ => Panic TypeAssertionFailed
  end.

Definition event_layers (t : EventType) (ev : BasicEvent) : EventLayers :=
  match t with
  | MouseEvent => EvEmbedsUI ev
  | _ => EvEmbeds ev
  end.

Definition wrapEvent (σ : Host) (o : Value) : Res (option Event) :=
  if nullish o then Ok None
  else
    let ev := mkBasicEvent o in
    let! c := Get σ o "constructor" in
    match switch_constructor event_name σ c event_cases with
    | Some t => Ok (Some (ConcreteEv t (event_layers t ev)))
    | None => Ok (Some (BasicEv ev))
    end.

Definition TokenList_Item (σ : Host) (tl : TokenList) (idx : Z) : Res string :=
  let! o := Call σ (dtl tl) "item" [Num idx] in
  Ok (toString o).

Definition TokenList_String (σ : Host) (tl : TokenList) : Res string :=
  if decide (sa tl <> "") then
    let! v := Get σ (o tl) (sa tl) in Ok (JSString v)
  else
    let! c := Get σ (dtl tl) "constructor" in
    if decide (c = GlobalGet σ "DOMSettableTokenList") then
      let! v := Get σ (dtl tl) "value" in Ok (JSString v)
    else
      (* We could manually construct the string, but I am not aware of
         any case where we have neither a string attribute nor
         DOMSettableTokenList. *)
      Ok "".

Definition TokenList_SetString (σ : Host) (tl : TokenList) (s : string) : Res Host :=
  if decide (sa tl <> "") then Set_ σ (o tl) (sa tl) (Str s)
  else
    let! c := Get σ (dtl tl) "constructor" in
    if decide (c = GlobalGet σ "DOMSettableTokenList") then
      Set_ σ (dtl tl) "value" (Str s)
    else
      (* This shouldn't be possible *)
      Panic (GoPanic "no way to SetString on this TokenList").

(** [js.Func]: a host function made by [js.FuncOf]. *)
Record Func : Type := mkFunc { func_id : nat }.

Definition Func_Value (f : Func) : Value := GoFunc (func_id f).

(** [f.Release()] *)
Definition Release (w : World) (f : Func) : World :=
  {| host := host w;
     registered := registered w;
     funcs := delete (func_id f) (funcs w);
     nextFuncID := nextFuncID w |}.

Definition AddEventListener (w : World) (n : BasicNode) (typ : string)
    (useCapture : bool) (listener : Handler) : Res (Func * World) :=
  let (id, w1) := new_closure w listener in
  let wrapper := mkFunc id in
  let! w2 := Call_addEventListener w1 (node_value n) typ (Func_Value wrapper) useCapture in
  Ok (wrapper, w2).

Definition RemoveEventListener (w : World) (n : BasicNode) (typ : string)
    (useCapture : bool) (listener : Func) : Res World :=
  let! w1 := Call_removeEventListener w (node_value n) typ (Func_Value listener) useCapture in
  Ok (Release w1 listener).

(** *** Documents *)

(** Values of the interface [Document]: a pointer to [document] or to
    [htmlDocument], never nil. *)
Inductive Document : Type :=
| document (n : BasicNode)          (* &document{&BasicNode{o}} *)
| htmlDocument (n : BasicNode).     (* &htmlDocument{&document{&BasicNode{o}}} *)

Record documentFragment : Type := mkDocumentFragment { fragment_node : BasicNode }.

Definition Document_Underlying (d : Document) : Value :=
  match d with
  | document n | htmlDocument n => node_value n
  end.

Definition wrapDocument (σ : Host) (o : Value) : Res Document :=
  let! c := elementConstructor σ o in
  if decide (c = GlobalGet σ "HTMLDocument") then Ok (htmlDocument (mkBasicNode o))
  else Ok (document (mkBasicNode o)).

Definition wrapDocumentFragment (σ : Host) (o : Value) : Res documentFragment :=
  let! _c := elementConstructor σ o in
  (* TODO: do we have any other stuff we want to check; default: *)
  Ok (mkDocumentFragment (mkBasicNode o)).

Definition htmlDocument_DesignMode (σ : Host) (d : BasicNode) : Res bool :=
  let! v := Get σ (node_value d) "designMode" in
  let s := JSString v in
  Ok (bool_decide (s <> "off")).

Definition htmlDocument_SetDesignMode (σ : Host) (d : BasicNode) (b : bool) : Res Host :=
  let s := if b then "on" else "off" in
  Set_ σ (node_value d) "designMode" (Str s).

(** The type assertions of the package to a pointer type, on an
    interface value that may be nil; the result is the struct behind the
    pointer. *)
Definition assert_HTMLFormElement (e : option HTMLElement) : Res Layers :=
  match e with
  | Some (Concrete HTMLFormElement l) => Ok l
  | _ => Panic TypeAssertionFailed
  end.

Definition assert_HTMLLabelElement (e : option HTMLElement) : Res Layers :=
  match e with
  | Some (Concrete HTMLLabelElement l) => Ok l
  | _ => Panic TypeAssertionFailed
  end.

Definition assert_HTMLOptionElement (e : option HTMLElement) : Res Layers :=
  match e with
  | Some (Concrete HTMLOptionElement l) => Ok l
  | _ => Panic TypeAssertionFailed
  end.

Definition htmlDocument_Forms (σ : Host) (d : BasicNode) : Res (slice Layers) :=
  let! forms := Get σ (node_value d) "forms" in
  let! l := Get σ forms "length" in
  let! length := Int l in
  collect length (fun i =>
    let! x := Call σ forms "item" [Num i] in
    let! e := wrapHTMLElement σ x in
    assert_HTMLFormElement e).

(** The slice of [getLabels] and [getOptions] holds pointers, nil until
    the loop has assigned them: [None] is the nil pointer. *)
Definition getLabels (σ : Host) (o : Value) : Res (slice (option Layers)) :=
  let! ls := Get σ o "labels" in
  let! labels := nodeListToElements σ ls in
  let out := make None (length (contents labels)) in
  let! out' := assign_each (fun label => let! l := assert_HTMLLabelElement label in Ok (Some l))
                 (contents labels) 0%nat out in
  Ok (Some out').

Definition getOptions (σ : Host) (o : Value) (attr : string) : Res (slice (option Layers)) :=
  let! os := Get σ o attr in
  let! options := nodeListToElements σ os in
  let out := make None (length (contents options)) in
  let! out' := assign_each (fun option => let! l := assert_HTMLOptionElement option in Ok (Some l))
                 (contents options) 0%nat out in
  Ok (Some out').

(** *** More of TokenList, and the elements that make one *)

Definition TokenList_Slice (σ : Host) (tl : TokenList) : Res (slice string) :=
  let! l := Get σ (dtl tl) "length" in
  let! length := Int l in
  collect length (fun i =>
    let! x := Call σ (dtl tl) "item" [Num i] in
    Ok (JSString x)).

Definition TokenList_Set (σ : Host) (tl : TokenList) (s : slice string) : Res Host :=
  TokenList_SetString σ tl (Join (contents s) " ").

Definition BasicElement_Class (σ : Host) (e : BasicElement) : Res TokenList :=
  let! cl := Get σ (node_value (element_node e)) "classList" in
  Ok {| dtl := cl; o := node_value (element_node e); sa := "className" |}.

Definition BasicElement_SetClass (σ : Host) (e : BasicElement) (s : string) : Res Host :=
  Set_ σ (node_value (element_node e)) "className" (Str s).

(** *** Events (src/unnamed/part_000) *)

Definition BasicEvent_Timestamp (σ : Host) (ev : BasicEvent) : Res Time :=
  let! t := Get σ (event_value ev) "timeStamp" in
  let! ms := Int t in
  let s := Z.quot ms 1000 in
  let ns := Z.rem ms 1000 * 1000000 in
  Ok (Unix s ns).

Record Touch : Type := mkTouch { touch_value : Value }.

Definition touchListToTouches (σ : Host) (tl : Value) : Res (slice (option Touch)) :=
  let! n := Length σ tl in
  if Z.ltb n 0 then Panic (GoPanic "runtime error: makeslice: len out of range")
  else
    let out := make None (Z.to_nat n) in
    let! out' := assign_range (fun i => let! x := Index σ tl i in Ok (Some (mkTouch x)))
                   (length out) 0%nat out in
    Ok (Some out').

(** *** ImageData *)

(** [color.NRGBA]; the fields are [uint8]. *)
Record NRGBA : Type := mkNRGBA { cR : Z; cG : Z; cB : Z; cA : Z }.

Definition is_NRGBA (c : NRGBA) : Prop :=
  0 <= cR c < 256 /\ 0 <= cG c < 256 /\ 0 <= cB c < 256 /\ 0 <= cA c < 256.

Record ImageData : Type := mkImageData { image_value : Value }.

(** [(y*m.Get("width").Int() + x) * 4] *)
Definition pixel_index (w x y : Z) : Z := int_mul (int_add (int_mul y w) x) 4.

(** [uint8(m.Get("data").Index(i).Int())] *)
Definition channel (σ : Host) (m : ImageData) (i : Z) : Res Z :=
  let! d := Get σ (image_value m) "data" in
  let! e := Index σ d i in
  let! n := Int e in
  Ok (uint8 n).

Definition ImageData_NRGBAAt (σ : Host) (m : ImageData) (x y : Z) : Res NRGBA :=
  if Z.ltb x 0 then Ok (mkNRGBA 0 0 0 0) else
  let! w := int_prop σ (image_value m) "width" in
  if Z.geb x w then Ok (mkNRGBA 0 0 0 0) else
  if Z.ltb y 0 then Ok (mkNRGBA 0 0 0 0) else
  let! h := int_prop σ (image_value m) "height" in
  if Z.geb y h then Ok (mkNRGBA 0 0 0 0) else
  let! w' := int_prop σ (image_value m) "width" in
  let i := pixel_index w' x y in
  let! r := channel σ m (int_add i 0) in
  let! g := channel σ m (int_add i 1) in
  let! b := channel σ m (int_add i 2) in
  let! a := channel σ m (int_add i 3) in
  Ok (mkNRGBA r g b a).

(** [m.Get("data").SetIndex(i, v)] *)
Definition set_channel (σ : Host) (m : ImageData) (i : Z) (v : Z) : Res Host :=
  let! d := Get σ (image_value m) "data" in
  SetIndex σ d i (Num v).

Section Colors.

(** The values of the interface [color.Color], and
    [color.NRGBAModel.Convert(c).(color.NRGBA)] of the image/color
    package. *)
Variable Color : Type.
Variable Convert : Color -> NRGBA.

Definition ImageData_Set (σ : Host) (m : ImageData) (x y : Z) (c : Color) : Res Host :=
  if Z.ltb x 0 then Ok σ else
  let! w := int_prop σ (image_value m) "width" in
  if Z.geb x w then Ok σ else
  if Z.ltb y 0 then Ok σ else
  let! h := int_prop σ (image_value m) "height" in
  if Z.geb y h then Ok σ else
  let c1 := Convert c in
  let! w' := int_prop σ (image_value m) "width" in
  let i := pixel_index w' x y in
  let! σ1 := set_channel σ m (int_add i 0) (cR c1) in
  let! σ2 := set_channel σ1 m (int_add i 1) (cG c1) in
  let! σ3 := set_channel σ2 m (int_add i 2) (cB c1) in
  set_channel σ3 m (int_add i 3) (cA c1).

End Colors.

Definition ImageData_SetNRGBA (σ : Host) (m : ImageData) (x y : Z) (c : NRGBA) : Res Host :=
  if Z.ltb x 0 then Ok σ else
  let! w := int_prop σ (image_value m) "width" in
  if Z.geb x w then Ok σ else
  if Z.ltb y 0 then Ok σ else
  let! h := int_prop σ (image_value m) "weight" in
  if Z.geb y h then Ok σ else
  let! w' := int_prop σ (image_value m) "width" in
  let i := pixel_index w' x y in
  let! σ1 := set_channel σ m (int_add i 0) (cR c) in
  let! σ2 := set_channel σ1 m (int_add i 1) (cG c) in
  let! σ3 := set_channel σ2 m (int_add i 2) (cB c) in
  set_channel σ3 m (int_add i 3) (cA c).

(** *** Attributes *)

(** The loop of [Attributes], [n] more items from index [i] on. *)
Fixpoint Attributes_loop (σ : Host) (o : Value) (n : nat) (i : Z)
    (attrs : gmap string string) : Res (gmap string string) :=
  match n with
  | O => Ok attrs
  | S n' =>
      let! item := Call σ o "item" [Num i] in
      let! name := Get σ item "name" in
      let! value := Get σ item "value" in
      Attributes_loop σ o n' (i + 1) (<[JSString name := JSString value]> attrs)
  end.

Definition BasicElement_Attributes (σ : Host) (e : BasicElement)
    : Res (gmap string string) :=
  let! o := Get σ (node_value (element_node e)) "attributes" in
  let! l := Get σ o "length" in
  let! length := Int l in
  Attributes_loop σ o (Z.to_nat length) 0 ∅.

End V2.

(** ** src/unnamed/part_001 *)

Module GopherJS2.

Definition layers (t : ElementType) (el : BasicHTMLElement) : Layers :=
  match t with
  | HTMLAudioElement | HTMLVideoElement => EmbedsMedia el
  | _ => Embeds el
  end.

Definition wrapHTMLElement (σ : Host) (o : Value) : Res (option HTMLElement) :=
  if nullish o then Ok None
  else
    let el := new_el o in
    let! c := Get σ o "constructor" in
    match switch_constructor element_name σ c html_cases with
    | Some t => Ok (Some (Concrete t (layers t el)))
    | None =>
        let! s := Call σ o "toString" [] in
        Panic (GoPanic ("Unsupported HTML element type: " +:+ JSString s))
    end.

Definition wrapElement (σ : Host) (o : Value) : Res (option Element) :=
  if nullish o then Ok None
  else
    let! _c := Get σ o "constructor" in
    (* TODO all the non-HTML cases; default: *)
    wrapHTMLElement σ o.

Definition wrapNode (σ : Host) (o : Value) : Res (option Node) :=
  if nullish o then Ok None
  else
    let! c := Get σ o "constructor" in
    if decide (c = GlobalGet σ "Text") then Ok (Some (Text (mkBasicNode o)))
    else
      let! e := wrapElement σ o in
      Ok (ElementNode <$> e).

Definition nodeListToNodes (σ : Host) (o : Value) : Res (slice (option Node)) :=
  let! l := Get σ o "length" in
  let! length := Int l in
  collect length (fun i => let! x := Call σ o "item" [Num i] in wrapNode σ x).

Definition nodeListToElements (σ : Host) (o : Value) : Res (slice (option Element)) :=
  let! l := Get σ o "length" in
  let! length := Int l in
  collect length (fun i => let! x := Call σ o "item" [Num i] in wrapElement σ x).

Definition nodeListToHTMLElements (σ : Host) (o : Value)
    : Res (slice (option HTMLElement)) :=
  let! l := Get σ o "length" in
  let! length := Int l in
  collect length (fun i => let! x := Call σ o "item" [Num i] in wrapHTMLElement σ x).

Definition getForm (σ : Host) (o : Value) : Res (option Layers) :=
  let! f := Get σ o "form" in
  let! form := wrapHTMLElement σ f in
  match form with
  | None => Ok None
  | Some (Concrete HTMLFormElement l) => Ok (Some l)
  | Some _ => Panic TypeAssertionFailed
  end.

Definition event_layers (t : EventType) (ev : BasicEvent) : EventLayers :=
  match t with
  | MouseEvent => EvEmbedsUI ev
  | _ => EvEmbeds ev
  end.

Definition wrapEvent (σ : Host) (o : Value) : Res (option Event) :=
  if nullish o then Ok None
  else
    let ev := mkBasicEvent o in
    let! c := Get σ o "constructor" in
    match switch_constructor event_name σ c event_cases with
    | Some t => Ok (Some (ConcreteEv t (event_layers t ev)))
    | None => Ok (Some (BasicEv ev))
    end.

Definition TokenList_Item (σ : Host) (tl : TokenList) (idx : Z) : Res string :=
  let! o := Call σ (dtl tl) "item" [Num idx] in
  if nullish o then Ok "" else Ok (JSString o).

Definition TokenList_String (σ : Host) (tl : TokenList) : Res string :=
  if decide (sa tl <> "") then
    let! v := Get σ (o tl) (sa tl) in Ok (JSString v)
  else
    let! c := Get σ (dtl tl) "constructor" in
    if decide (c = GlobalGet σ "DOMSettableTokenList") then
      let! v := Get σ (dtl tl) "value" in Ok (JSString v)
    else Ok "".

Definition TokenList_SetString (σ : Host) (tl : TokenList) (s : string) : Res Host :=
  if decide (sa tl <> "") then Set_ σ (o tl) (sa tl) (Str s)
  else
    let! c := Get σ (dtl tl) "constructor" in
    if decide (c = GlobalGet σ "DOMSettableTokenList") then
      Set_ σ (dtl tl) "value" (Str s)
    else
      (* This shouldn't be possible *)
      Panic (GoPanic "no way to SetString on this TokenList").

(** A Go value of type [func(js.Object)], by the identity of the closure;
    handed to the host it becomes the host function of that identity. *)
Definition AddEventListener (w : World) (n : BasicNode) (typ : string)
    (useCapture : bool) (listener : Handler) : Res (nat * World) :=
  let (wrapper, w1) := new_closure w listener in
  let! w2 := Call_addEventListener w1 (node_value n) typ (GoFunc wrapper) useCapture in
  Ok (wrapper, w2).

Definition RemoveEventListener (w : World) (n : BasicNode) (typ : string)
    (useCapture : bool) (listener : nat) : Res World :=
  Call_removeEventListener w (node_value n) typ (GoFunc listener) useCapture.

End GopherJS2.

(** ** src/dom.go *)

Module GopherJS1.

(** o.Get("constructor").Get("name").String() *)
Definition constructor_name (σ : Host) (o : Value) : Res string :=
  let! c := Get σ o "constructor" in
  let! n := Get σ c "name" in
  Ok (JSString n).

Definition wrapHTMLElement (σ : Host) (o : Value) : Res (option HTMLElement) :=
  if nullish o then Ok None
  else
    let el := new_el o in
    let! name := constructor_name σ o in
    match switch_name element_name name html_cases with
    | Some t => Ok (Some (Concrete t (Embeds el)))
    | None => Panic (GoPanic ("Unsupported HTML element type: " +:+ name))
    end.

Definition wrapElement (σ : Host) (o : Value) : Res (option Element) :=
  if nullish o then Ok None
  else
    let! _name := constructor_name σ o in
    (* TODO all the non-HTML cases; default: *)
    wrapHTMLElement σ o.

Definition wrapNode (σ : Host) (o : Value) : Res (option Node) :=
  if nullish o then Ok None
  else
    let! _name := constructor_name σ o in
    (* TODO all the non-element cases; default: *)
    let! e := wrapElement σ o in
    Ok (ElementNode <$> e).

Definition nodeListToNodes (σ : Host) (o : Value) : Res (slice (option Node)) :=
  let! l := Get σ o "length" in
  let! length := Int l in
  collect length (fun i => let! x := Call σ o "item" [Num i] in wrapNode σ x).

Definition nodeListToElements (σ : Host) (o : Value) : Res (slice (option Element)) :=
  let! l := Get σ o "length" in
  let! length := Int l in
  collect length (fun i => let! x := Call σ o "item" [Num i] in wrapElement σ x).

Definition wrapEvent (σ : Host) (o : Value) : Res (option Event) :=
  if nullish o then Ok None
  else
    let ev := mkBasicEvent o in
    let! name := constructor_name σ o in
    match switch_name event_name name event_cases with
    | Some t => Ok (Some (ConcreteEv t (EvEmbeds ev)))
    | None => Ok (Some (BasicEv ev))
    end.

Definition AddEventListener (w : World) (n : BasicNode) (typ : string)
    (useCapture : bool) (listener : Handler) : Res World :=
  let (fn, w1) := new_closure w listener in
  Call_addEventListener w1 (node_value n) typ (GoFunc fn) useCapture.

Definition RemoveEventListener (w : World) (n : BasicNode) (typ : string)
    (useCapture : bool) (listener : Handler) : Res World :=
  let (fn, w1) := new_closure w listener in
  Call_removeEventListener w1 (node_value n) typ (GoFunc fn) useCapture.

End GopherJS1.

(** ** A small page

    A host with a window, a few constructors and a few objects, on which
    the functions above can be run. *)

Module Page.

Definition object (ps : list (string * Value)) : JSObject :=
  {| props := list_to_map ps; elems := []; methods := ∅ |}.

Definition constructor_object (name : string) : JSObject :=
  object [("name", Str name)].

Definition window : addr := 0%nat.
Definition div : addr := 20%nat.
Definition form : addr := 21%nat.
Definition svg : addr := 22%nat.
Definition input_in_form : addr := 23%nat.
Definition input_in_div : addr := 24%nat.
Definition input_alone : addr := 25%nat.
Definition polymer_null : addr := 26%nat.
Definition children : addr := 30%nat.
Definition no_children : addr := 31%nat.
Definition children_array : addr := 32%nat.
Definition svg_children : addr := 33%nat.
Definition class_list : addr := 40%nat.
Definition settable_list : addr := 41%nat.
Definition my_event : addr := 50%nat.

Definition two_items (args : list Value) : Value :=
  match args with
  | [Num 0] => Ref div
  | [Num 1] => Ref form
  | _ => Null
  end.

Definition no_items (args : list Value) : Value := Null.

Definition svg_item (args : list Value) : Value :=
  match args with
  | [Num 0] => Ref svg
  | _ => Null
  end.

Definition one_token (args : list Value) : Value :=
  match args with
  | [Num 0] => Str "a"
  | _ => Null
  end.

Definition page : Host :=
  {| global := window;
     heap := list_to_map
       [ (window, object [("HTMLFormElement", Ref 1%nat); ("HTMLDivElement", Ref 2%nat);
                          ("Array", Ref 3%nat); ("Text", Ref 4%nat);
                          ("DOMSettableTokenList", Ref 5%nat); ("MouseEvent", Ref 6%nat);
                          ("HTMLInputElement", Ref 11%nat)]);
         (1%nat, constructor_object "HTMLFormElement");
         (2%nat, constructor_object "HTMLDivElement");
         (3%nat, constructor_object "Array");
         (4%nat, constructor_object "Text");
         (5%nat, constructor_object "DOMSettableTokenList");
         (6%nat, constructor_object "MouseEvent");
         (7%nat, constructor_object "SVGSVGElement");
         (8%nat, constructor_object "NodeList");
         (9%nat, constructor_object "DOMTokenList");
         (10%nat, constructor_object "MyEvent");
         (11%nat, constructor_object "HTMLInputElement");
         (div, object [("constructor", Ref 2%nat); ("className", Str "a")]);
         (form, object [("constructor", Ref 1%nat)]);
         (svg, {| props := list_to_map [("constructor", Ref 7%nat)];
                  elems := [];
                  methods := {[ "toString" := fun _ => Str "[object SVGSVGElement]" ]} |});
         (input_in_form, object [("constructor", Ref 11%nat); ("form", Ref form)]);
         (input_in_div, object [("constructor", Ref 11%nat); ("form", Ref div)]);
         (input_alone, object [("constructor", Ref 11%nat); ("form", Null)]);
         (polymer_null, object [("constructor", Ref 2%nat); ("node", Null)]);
         (children, {| props := list_to_map [("constructor", Ref 8%nat); ("length", Num 2)];
                       elems := [];
                       methods := {[ "item" := two_items ]} |});
         (no_children, {| props := list_to_map [("constructor", Ref 8%nat); ("length", Num 0)];
                          elems := [];
                          methods := {[ "item" := no_items ]} |});
         (children_array, {| props := list_to_map [("constructor", Ref 3%nat); ("length", Num 2)];
                             elems := [Ref div; Ref form];
                             methods := ∅ |});
         (svg_children, {| props := list_to_map [("constructor", Ref 8%nat); ("length", Num 1)];
                           elems := [];
                           methods := {[ "item" := svg_item ]} |});
         (class_list, {| props := list_to_map [("constructor", Ref 9%nat); ("length", Num 1)];
                         elems := [];
                         methods := {[ "item" := one_token ]} |});
         (settable_list, object [("constructor", Ref 5%nat); ("value", Str "x y")]);
         (my_event, object [("constructor", Ref 10%nat)]) ] |}.

(** A world over the page in which nothing is registered yet. *)
Definition quiet : World :=
  {| host := page; registered := []; funcs := ∅; nextFuncID := 0%nat |}.

(** The two children of the page, as the v2 factory wraps them. *)
Definition two_facades (i : Z) : option Node :=
  match V2.wrapNode page (two_items [Num i]) with
  | Ok n => n
  | Panic _ => None
  end.

(** A caller's handler. *)
Definition on_click : Handler := 7%nat.

End Page.


(** ** A second page

    A host with a document, a form with labelled inputs, an element with
    attributes, an image, an event and a touch list. *)

Module Studio.

Definition window : addr := 0%nat.
Definition doc : addr := 10%nat.
Definition label1 : addr := 20%nat.
Definition label2 : addr := 21%nat.
Definition form : addr := 22%nat.
Definition div : addr := 23%nat.
Definition text : addr := 24%nat.
Definition input_two_labels : addr := 25%nat.
Definition input_bad_label : addr := 26%nat.
Definition input_no_labels : addr := 27%nat.
Definition forms : addr := 30%nat.
Definition two_labels : addr := 31%nat.
Definition label_and_div : addr := 32%nat.
Definition no_labels : addr := 33%nat.
Definition class_list : addr := 40%nat.
Definition attributes : addr := 50%nat.
Definition attr_id : addr := 51%nat.
Definition attr_class : addr := 52%nat.
Definition image : addr := 60%nat.
Definition pixels : addr := 61%nat.
Definition event : addr := 70%nat.
Definition touches : addr := 80%nat.
Definition click : addr := 71%nat.

Definition items (l : list Value) (args : list Value) : Value :=
  match args with
  | [Num i] => if Z.ltb i 0 then Null else default Null (l !! Z.to_nat i)
  | _ => Null
  end.

Definition collection (l : list Value) : JSObject :=
  {| props := list_to_map [("constructor", Ref 7%nat);
                           ("length", Num (Z.of_nat (length l)))];
     elems := [];
     methods := {[ "item" := items l ]} |}.

Definition studio : Host :=
  {| global := window;
     heap := list_to_map
       [ (window, Page.object [("HTMLDocument", Ref 1%nat); ("HTMLLabelElement", Ref 2%nat);
                               ("HTMLFormElement", Ref 3%nat); ("Text", Ref 4%nat);
                               ("HTMLOptionElement", Ref 5%nat); ("HTMLDivElement", Ref 6%nat);
                               ("NodeList", Ref 7%nat); ("Array", Ref 8%nat);
                               ("MouseEvent", Ref 9%nat)]);
         (1%nat, Page.constructor_object "HTMLDocument");
         (2%nat, Page.constructor_object "HTMLLabelElement");
         (3%nat, Page.constructor_object "HTMLFormElement");
         (4%nat, Page.constructor_object "Text");
         (5%nat, Page.constructor_object "HTMLOptionElement");
         (6%nat, Page.constructor_object "HTMLDivElement");
         (7%nat, Page.constructor_object "NodeList");
         (8%nat, Page.constructor_object "Array");
         (9%nat, Page.constructor_object "MouseEvent");
         (doc, Page.object [("constructor", Ref 1%nat); ("designMode", Str "off");
                            ("forms", Ref forms)]);
         (label1, Page.object [("constructor", Ref 2%nat)]);
         (label2, Page.object [("constructor", Ref 2%nat)]);
         (form, Page.object [("constructor", Ref 3%nat)]);
         (div, Page.object [("constructor", Ref 6%nat); ("classList", Ref class_list);
                            ("className", Str "a b"); ("attributes", Ref attributes)]);
         (text, Page.object [("constructor", Ref 4%nat)]);
         (input_two_labels, Page.object [("labels", Ref two_labels)]);
         (input_bad_label, Page.object [("labels", Ref label_and_div)]);
         (input_no_labels, Page.object [("labels", Ref no_labels)]);
         (forms, collection [Ref form]);
         (two_labels, collection [Ref label1; Ref label2]);
         (label_and_div, collection [Ref label1; Ref div]);
         (no_labels, collection []);
         (class_list, collection [Str "a"; Str "b"]);
         (attributes, collection [Ref attr_id; Ref attr_class]);
         (attr_id, Page.object [("name", Str "id"); ("value", Str "x")]);
         (attr_class, Page.object [("name", Str "class"); ("value", Str "a b")]);
         (image, Page.object [("width", Num 2); ("height", Num 1); ("data", Ref pixels)]);
         (pixels, {| props := list_to_map [("length", Num 8)];
                     elems := [Num 1; Num 2; Num 3; Num 4; Num 5; Num 6; Num 7; Num 8];
                     methods := ∅ |});
         (event, Page.object [("timeStamp", Num (-1234567))]);
         (click, Page.object [("constructor", Ref 9%nat); ("timeStamp", Num 5)]);
         (touches, {| props := list_to_map [("constructor", Ref 8%nat); ("length", Num 2)];
                      elems := [Ref label1; Ref label2];
                      methods := ∅ |}) ] |}.

(** A world over the second page with one listener registered. *)
Definition busy : World :=
  {| host := studio;
     registered := [mkListener div "keydown" (GoFunc 0%nat) true];
     funcs := {[ 0%nat := 3%nat ]};
     nextFuncID := 1%nat |}.

End Studio.

(** ** Register, deregister, click

    On the quiet page a click handler is added to the div and removed
    again, with what the generation's RemoveEventListener takes; then a
    click is fired at the div.  The result is the list of handler
    invocations the click leads to. *)

Module Scenario.

Definition click_after_remove_v2 : Res (list Invocation) :=
  let n := mkBasicNode (Ref Page.div) in
  let! added := V2.AddEventListener Page.quiet n "click" false Page.on_click in
  let! w := V2.RemoveEventListener (snd added) n "click" false (fst added) in
  fire V2.wrapEvent w Page.div "click" (Ref Page.my_event).

Definition click_after_remove_2 : Res (list Invocation) :=
  let n := mkBasicNode (Ref Page.div) in
  let! added := GopherJS2.AddEventListener Page.quiet n "click" false Page.on_click in
  let! w := GopherJS2.RemoveEventListener (snd added) n "click" false (fst added) in
  fire GopherJS2.wrapEvent w Page.div "click" (Ref Page.my_event).

Definition click_after_remove_1 : Res (list Invocation) :=
  let n := mkBasicNode (Ref Page.div) in
  let! w1 := GopherJS1.AddEventListener Page.quiet n "click" false Page.on_click in
  let! w2 := GopherJS1.RemoveEventListener w1 n "click" false Page.on_click in
  fire GopherJS1.wrapEvent w2 Page.div "click" (Ref Page.my_event).

End Scenario.

(** * Properties *)

(** ** The switch statements *)

Lemma switch_constructor_none {T} (name : T -> string) σ c cases :
  Forall (fun t => c <> GlobalGet σ (name t)) cases ->
  switch_constructor name σ c cases = None.
Proof.
  induction 1 as [|t rest Hne _ IH]; simpl; [done|].
  destruct (decide (c = GlobalGet σ (name t))); [contradiction | exact IH].
Qed.

Lemma switch_constructor_some {T} (name : T -> string) σ c cases t :
  switch_constructor name σ c cases = Some t ->
  t ∈ cases /\ c = GlobalGet σ (name t).
Proof.
  induction cases as [|t' rest IH]; simpl; [done|].
  destruct (decide (c = GlobalGet σ (name t'))) as [Heq|Hne].
  - intros [= <-]. split; [left | exact Heq].
  - intros H. destruct (IH H) as [Hin Hc]. split; [by right | exact Hc].
Qed.

Lemma switch_constructor_hit {T} (name : T -> string) σ c cases :
  Exists (fun t => c = GlobalGet σ (name t)) cases ->
  exists t, switch_constructor name σ c cases = Some t.
Proof.
  induction 1 as [t rest Heq | t rest _ IH]; simpl.
  - destruct (decide (c = GlobalGet σ (name t))); [eauto | contradiction].
  - destruct (decide (c = GlobalGet σ (name t))); [eauto | exact IH].
Qed.

Lemma switch_name_none {T} (name : T -> string) s cases :
  Forall (fun t => s <> name t) cases ->
  switch_name name s cases = None.
Proof.
  induction 1 as [|t rest Hne _ IH]; simpl; [done|].
  destruct (decide (s = name t)); [contradiction | exact IH].
Qed.

Lemma switch_name_hit {T} (name : T -> string) s cases :
  Exists (fun t => s = name t) cases ->
  exists t, switch_name name s cases = Some t.
Proof.
  induction 1 as [t rest Heq | t rest _ IH]; simpl.
  - destruct (decide (s = name t)); [eauto | contradiction].
  - destruct (decide (s = name t)); [eauto | exact IH].
Qed.

(** ** Null and undefined handles *)

(** Reading the type tag of a null or undefined handle is a host error:
    the factories have to test the handle first. *)
Lemma tag_lookup_of_nothing σ o :
  nullish o = true ->
  V2.elementConstructor σ o = Panic HostTypeError
  /\ Get σ o "constructor" = Panic HostTypeError
  /\ GopherJS1.constructor_name σ o = Panic HostTypeError.
Proof. by destruct o. Qed.

(** C5.  For the null and for the undefined handle, wrapNode,
    wrapElement, wrapHTMLElement and wrapEvent of every generation return
    the nil interface: no facade is built and nothing panics, in any host
    state, although a type-tag lookup on such a handle would panic. *)
Theorem wrap_of_nothing_is_nil (σ : Host) :
  Forall (fun o =>
    V2.wrapNode σ o = Ok None /\ V2.wrapElement σ o = Ok None
    /\ V2.wrapHTMLElement σ o = Ok None /\ V2.wrapEvent σ o = Ok None
    /\ GopherJS2.wrapNode σ o = Ok None /\ GopherJS2.wrapElement σ o = Ok None
    /\ GopherJS2.wrapHTMLElement σ o = Ok None /\ GopherJS2.wrapEvent σ o = Ok None
    /\ GopherJS1.wrapNode σ o = Ok None /\ GopherJS1.wrapElement σ o = Ok None
    /\ GopherJS1.wrapHTMLElement σ o = Ok None /\ GopherJS1.wrapEvent σ o = Ok None
    /\ V2.elementConstructor σ o = Panic HostTypeError
    /\ Get σ o "constructor" = Panic HostTypeError)
    [Null; Undefined].
Proof. repeat constructor. Qed.

(** ** Events with an unrecognized constructor *)

(** C9.  An event handle that is neither null nor undefined and whose
    constructor is none of the host constructors the arms of wrapEvent
    compare with (for src/dom.go: whose constructor's name is none of the
    names) is wrapped as the base event facade over that very handle; the
    factory does not panic. *)
Theorem wrapEvent_unrecognized_is_basic (σ : Host) (o : Value) :
  nullish o = false ->
  (forall c, Get σ o "constructor" = Ok c ->
     Forall (fun t => c <> GlobalGet σ (event_name t)) event_cases ->
     V2.wrapEvent σ o = Ok (Some (BasicEv (mkBasicEvent o)))
     /\ GopherJS2.wrapEvent σ o = Ok (Some (BasicEv (mkBasicEvent o))))
  /\ (forall name, GopherJS1.constructor_name σ o = Ok name ->
     Forall (fun t => name <> event_name t) event_cases ->
     GopherJS1.wrapEvent σ o = Ok (Some (BasicEv (mkBasicEvent o)))).
Proof.
  intros Hnn. split.
  - intros c Hc Hout.
    unfold V2.wrapEvent, GopherJS2.wrapEvent. rewrite Hnn, Hc. cbn [bind].
    by rewrite (switch_constructor_none _ _ _ _ Hout).
  - intros name Hname Hout.
    unfold GopherJS1.wrapEvent. rewrite Hnn, Hname. cbn [bind].
    by rewrite (switch_name_none _ _ _ Hout).
Qed.

Lemma wrapEvent_unrecognized_is_basic_witness :
  (V2.wrapEvent Page.page (Ref Page.my_event)
     = Ok (Some (BasicEv (mkBasicEvent (Ref Page.my_event))))
   /\ GopherJS2.wrapEvent Page.page (Ref Page.my_event)
     = Ok (Some (BasicEv (mkBasicEvent (Ref Page.my_event)))))
  /\ GopherJS1.wrapEvent Page.page (Ref Page.my_event)
     = Ok (Some (BasicEv (mkBasicEvent (Ref Page.my_event)))).
Proof.
  destruct (wrapEvent_unrecognized_is_basic Page.page (Ref Page.my_event) eq_refl)
    as [H2 H1].
  split.
  - apply (H2 (Ref 10%nat)); [reflexivity|].
    apply (bool_decide_unpack _). vm_compute. exact I.
  - apply (H1 "MyEvent"); [reflexivity|].
    apply (bool_decide_unpack _). vm_compute. exact I.
Defined.

(** ** TokenList *)

Lemma Get_after_Set σ a p x σ' :
  Set_ σ (Ref a) p x = Ok σ' -> Get σ' (Ref a) p = Ok x.
Proof.
  intros [= <-]. unfold Get, object_at; cbn [heap].
  rewrite lookup_insert_eq; simpl.
  by rewrite lookup_insert_eq.
Qed.

(** C10.  On a token list whose host object has an item method, Item
    returns a string for every index: the empty string where the host
    answers null or undefined (as it does past the end of the list), and
    the host's string otherwise.  There is no panic. *)
Theorem TokenList_Item_total (σ : Host) (tl : TokenList) (a : addr)
    (item : list Value -> Value) (idx : Z) :
  dtl tl = Ref a ->
  methods (object_at σ a) !! "item" = Some item ->
  exists s : string,
    V2.TokenList_Item σ tl idx = Ok s
    /\ GopherJS2.TokenList_Item σ tl idx = Ok s
    /\ s = (if nullish (item [Num idx]) then "" else JSString (item [Num idx])).
Proof.
  intros Hd Hm.
  exists (if nullish (item [Num idx]) then "" else JSString (item [Num idx])).
  unfold V2.TokenList_Item, GopherJS2.TokenList_Item, V2.toString, Call.
  rewrite Hd, Hm; cbn [bind].
  by destruct (nullish (item [Num idx])).
Qed.

Lemma TokenList_Item_total_witness :
  exists s : string,
    V2.TokenList_Item Page.page
      (mkTokenList (Ref Page.class_list) (Ref Page.div) "className") 7 = Ok s
    /\ GopherJS2.TokenList_Item Page.page
      (mkTokenList (Ref Page.class_list) (Ref Page.div) "className") 7 = Ok s
    /\ s = "".
Proof.
  exact (TokenList_Item_total Page.page
           (mkTokenList (Ref Page.class_list) (Ref Page.div) "className")
           Page.class_list Page.one_token 7 eq_refl eq_refl).
Defined.

(** C4.  Reading and writing a token list as a string.  (1) With a
    companion attribute name, both go to that attribute of the owning
    object, whatever the token list object is.  (2) Without one, and with
    a token list whose constructor is the host's DOMSettableTokenList,
    both go to its value property.  (3) Otherwise String returns the
    empty string and SetString panics. *)
Theorem TokenList_string_precedence (σ : Host) (tl : TokenList) (s : string) :
  (sa tl <> "" ->
     V2.TokenList_String σ tl = (let! v := Get σ (o tl) (sa tl) in Ok (JSString v))
     /\ V2.TokenList_SetString σ tl s = Set_ σ (o tl) (sa tl) (Str s)
     /\ GopherJS2.TokenList_String σ tl = (let! v := Get σ (o tl) (sa tl) in Ok (JSString v))
     /\ GopherJS2.TokenList_SetString σ tl s = Set_ σ (o tl) (sa tl) (Str s))
  /\ (sa tl = "" ->
      forall c, Get σ (dtl tl) "constructor" = Ok c ->
      (c = GlobalGet σ "DOMSettableTokenList" ->
         V2.TokenList_String σ tl = (let! v := Get σ (dtl tl) "value" in Ok (JSString v))
         /\ V2.TokenList_SetString σ tl s = Set_ σ (dtl tl) "value" (Str s)
         /\ GopherJS2.TokenList_String σ tl = (let! v := Get σ (dtl tl) "value" in Ok (JSString v))
         /\ GopherJS2.TokenList_SetString σ tl s = Set_ σ (dtl tl) "value" (Str s))
      /\ (c <> GlobalGet σ "DOMSettableTokenList" ->
         V2.TokenList_String σ tl = Ok ""
         /\ V2.TokenList_SetString σ tl s
            = Panic (GoPanic "no way to SetString on this TokenList")
         /\ GopherJS2.TokenList_String σ tl = Ok ""
         /\ GopherJS2.TokenList_SetString σ tl s
            = Panic (GoPanic "no way to SetString on this TokenList"))).
Proof.
  unfold V2.TokenList_String, V2.TokenList_SetString,
    GopherJS2.TokenList_String, GopherJS2.TokenList_SetString.
  split.
  - intros Hsa. by destruct (decide (sa tl <> "")).
  - intros Hsa c Hc. destruct (decide (sa tl <> "")); [done|].
    rewrite Hc; cbn [bind]. split; intros Hctor.
    + by destruct (decide (c = GlobalGet σ "DOMSettableTokenList")).
    + by destruct (decide (c = GlobalGet σ "DOMSettableTokenList")).
Qed.

Lemma TokenList_string_precedence_witness :
  (V2.TokenList_String Page.page
     (mkTokenList (Ref Page.settable_list) (Ref Page.div) "className") = Ok "a"
   /\ V2.TokenList_String Page.page
     (mkTokenList (Ref Page.settable_list) (Ref Page.div) "") = Ok "x y"
   /\ V2.TokenList_String Page.page
     (mkTokenList (Ref Page.class_list) (Ref Page.div) "") = Ok "")
  /\ V2.TokenList_SetString Page.page
     (mkTokenList (Ref Page.class_list) (Ref Page.div) "") "b"
     = Panic (GoPanic "no way to SetString on this TokenList").
Proof.
  pose proof (TokenList_string_precedence Page.page
    (mkTokenList (Ref Page.settable_list) (Ref Page.div) "className") "b") as [H1 _].
  pose proof (TokenList_string_precedence Page.page
    (mkTokenList (Ref Page.settable_list) (Ref Page.div) "") "b") as [_ H2].
  pose proof (TokenList_string_precedence Page.page
    (mkTokenList (Ref Page.class_list) (Ref Page.div) "") "b") as [_ H3].
  specialize (H1 ltac:(discriminate)).
  specialize (H2 eq_refl (Ref 5%nat) eq_refl) as [H2 _].
  specialize (H3 eq_refl (Ref 9%nat) eq_refl) as [_ H3].
  specialize (H2 eq_refl). specialize (H3 ltac:(discriminate)).
  destruct H1 as [H1 _], H2 as [H2 _], H3 as (H3 & H4 & _).
  split; [split; [|split]|].
  - rewrite H1. reflexivity.
  - rewrite H2. reflexivity.
  - exact H3.
  - exact H4.
Defined.

(** C8.  With a companion attribute name and an owning object, SetString
    of any string s (with or without white space) succeeds, and String in
    the resulting host state returns s: both go through the same
    attribute of the owning object. *)
Theorem TokenList_SetString_then_String (σ : Host) (tl : TokenList)
    (a : addr) (s : string) :
  sa tl <> "" ->
  o tl = Ref a ->
  exists σ' : Host,
    V2.TokenList_SetString σ tl s = Ok σ'
    /\ V2.TokenList_String σ' tl = Ok s
    /\ GopherJS2.TokenList_SetString σ tl s = Ok σ'
    /\ GopherJS2.TokenList_String σ' tl = Ok s.
Proof.
  intros Hsa Ho.
  destruct (Set_ σ (Ref a) (sa tl) (Str s)) as [σ'|e] eqn:Hset; [|discriminate].
  exists σ'.
  unfold V2.TokenList_String, V2.TokenList_SetString,
    GopherJS2.TokenList_String, GopherJS2.TokenList_SetString.
  destruct (decide (sa tl <> "")); [|done].
  rewrite Ho, Hset, (Get_after_Set _ _ _ _ _ Hset). by cbn.
Qed.

Lemma TokenList_SetString_then_String_witness :
  exists σ' : Host,
    V2.TokenList_SetString Page.page
      (mkTokenList (Ref Page.class_list) (Ref Page.div) "className") "b" = Ok σ'
    /\ V2.TokenList_String σ'
      (mkTokenList (Ref Page.class_list) (Ref Page.div) "className") = Ok "b"
    /\ GopherJS2.TokenList_SetString Page.page
      (mkTokenList (Ref Page.class_list) (Ref Page.div) "className") "b" = Ok σ'
    /\ GopherJS2.TokenList_String σ'
      (mkTokenList (Ref Page.class_list) (Ref Page.div) "className") = Ok "b".
Proof.
  apply (TokenList_SetString_then_String Page.page
           (mkTokenList (Ref Page.class_list) (Ref Page.div) "className")
           Page.div "b"); [discriminate | reflexivity].
Defined.

(** ** The form relationship *)

Lemma V2_getForm_wrong_tag σ h v c :
  Get σ h "form" = Ok v ->
  nullish v = false ->
  V2.elementConstructor σ v = Ok c ->
  c <> GlobalGet σ "HTMLFormElement" ->
  V2.getForm σ h = Panic TypeAssertionFailed.
Proof.
  intros Hf Hv Hc Hne.
  unfold V2.getForm, V2.wrapHTMLElement. rewrite Hf; cbn [bind].
  rewrite Hv, Hc; cbn [bind].
  destruct (switch_constructor element_name σ c html_cases_v2) as [t|] eqn:Hsw.
  - apply switch_constructor_some in Hsw as [_ Hsw].
    destruct t; try reflexivity. by destruct Hne.
  - by destruct (decide (c = GlobalGet σ "HTMLElement")).
Qed.

Lemma GopherJS2_getForm_wrong_tag σ h v c :
  Get σ h "form" = Ok v ->
  nullish v = false ->
  Get σ v "constructor" = Ok c ->
  c <> GlobalGet σ "HTMLFormElement" ->
  is_panic (GopherJS2.getForm σ h).
Proof.
  intros Hf Hv Hc Hne.
  unfold GopherJS2.getForm, GopherJS2.wrapHTMLElement. rewrite Hf; cbn [bind].
  rewrite Hv, Hc; cbn [bind].
  destruct (switch_constructor element_name σ c html_cases) as [t|] eqn:Hsw.
  - apply switch_constructor_some in Hsw as [_ Hsw].
    destruct t; try exact I. by destruct Hne.
  - by destruct (Call σ v "toString" []).
Qed.

(** C2.  getForm reads the form property of the handle.  When it is null
    or undefined the result is nil.  When it is present and its type tag
    is not the host's HTMLFormElement constructor, getForm panics: in v2
    always by the failed type assertion when the tag can be read, in
    part_001 by the failed type assertion or, for a tag outside the
    vocabulary, by the panic of wrapHTMLElement.  No facade of another
    type is ever returned as a form. *)
Theorem getForm_absent_or_fatal (σ : Host) (h v : Value) :
  Get σ h "form" = Ok v ->
  (nullish v = true ->
     V2.getForm σ h = Ok None /\ GopherJS2.getForm σ h = Ok None)
  /\ (nullish v = false ->
      (V2.elementConstructor σ v <> Ok (GlobalGet σ "HTMLFormElement") ->
         is_panic (V2.getForm σ h)
         /\ (forall c, V2.elementConstructor σ v = Ok c ->
               V2.getForm σ h = Panic TypeAssertionFailed))
      /\ (Get σ v "constructor" <> Ok (GlobalGet σ "HTMLFormElement") ->
         is_panic (GopherJS2.getForm σ h))).
Proof.
  intros Hf. split; [|intros Hv; split].
  - intros Hv.
    unfold V2.getForm, V2.wrapHTMLElement, GopherJS2.getForm,
      GopherJS2.wrapHTMLElement.
    rewrite Hf; cbn [bind]. by rewrite Hv.
  - intros Htag.
    destruct (V2.elementConstructor σ v) as [c|e] eqn:Hc.
    + assert (c <> GlobalGet σ "HTMLFormElement") as Hne by congruence.
      rewrite (V2_getForm_wrong_tag _ _ _ _ Hf Hv Hc Hne). split; [exact I|done].
    + split; [|done].
      unfold V2.getForm, V2.wrapHTMLElement. rewrite Hf; cbn [bind].
      by rewrite Hv, Hc.
  - intros Htag.
    destruct (Get σ v "constructor") as [c|e] eqn:Hc.
    + apply (GopherJS2_getForm_wrong_tag _ _ _ c Hf Hv Hc). congruence.
    + unfold GopherJS2.getForm, GopherJS2.wrapHTMLElement. rewrite Hf; cbn [bind].
      by rewrite Hv, Hc.
Qed.

Lemma getForm_absent_or_fatal_witness :
  (V2.getForm Page.page (Ref Page.input_alone) = Ok None
   /\ GopherJS2.getForm Page.page (Ref Page.input_alone) = Ok None)
  /\ V2.getForm Page.page (Ref Page.input_in_div) = Panic TypeAssertionFailed
  /\ is_panic (GopherJS2.getForm Page.page (Ref Page.input_in_div)).
Proof.
  destruct (getForm_absent_or_fatal Page.page (Ref Page.input_alone) Null eq_refl)
    as [Habsent _].
  destruct (getForm_absent_or_fatal Page.page (Ref Page.input_in_div)
              (Ref Page.div) eq_refl) as [_ Hwrong].
  destruct (Hwrong eq_refl) as [H2 H1].
  split; [exact (Habsent eq_refl)|]. split.
  - destruct (H2 ltac:(discriminate)) as [_ Hassert].
    exact (Hassert (Ref 2%nat) eq_refl).
  - exact (H1 ltac:(discriminate)).
Defined.

(** ** Elements with an unrecognized constructor *)

Lemma V2_layers_base t el o : base_layer (V2.layers t el o) = el.
Proof. by destruct t. Qed.

Lemma GopherJS2_layers_base t el : base_layer (GopherJS2.layers t el) = el.
Proof. by destruct t. Qed.

(** In v2 a handle whose type tag can be read is always wrapped. *)
Lemma V2_wrapHTMLElement_total σ o c :
  nullish o = false ->
  V2.elementConstructor σ o = Ok c ->
  exists f, V2.wrapHTMLElement σ o = Ok (Some f)
            /\ HTMLElement_Underlying f = o.
Proof.
  intros Hnn Hc. unfold V2.wrapHTMLElement. rewrite Hnn, Hc; cbn [bind].
  destruct (switch_constructor element_name σ c html_cases_v2) as [t|].
  - eexists; split; [reflexivity|].
    unfold HTMLElement_Underlying; cbn [html_base].
    by rewrite V2_layers_base.
  - destruct (decide (c = GlobalGet σ "HTMLElement")); by eexists.
Qed.

(** C1, the handle is an svg element of the page: wrapHTMLElement and
    wrapElement of src/dom.go and of part_001 take the default arm and
    panic. *)
Lemma unsupported_element_panics :
  nullish (Ref Page.svg) = false
  /\ GopherJS1.wrapHTMLElement Page.page (Ref Page.svg)
     = Panic (GoPanic "Unsupported HTML element type: SVGSVGElement")
  /\ GopherJS1.wrapElement Page.page (Ref Page.svg)
     = Panic (GoPanic "Unsupported HTML element type: SVGSVGElement")
  /\ GopherJS2.wrapHTMLElement Page.page (Ref Page.svg)
     = Panic (GoPanic "Unsupported HTML element type: [object SVGSVGElement]")
  /\ GopherJS2.wrapElement Page.page (Ref Page.svg)
     = Panic (GoPanic "Unsupported HTML element type: [object SVGSVGElement]").
Proof.
  repeat match goal with |- _ /\ _ => split end; vm_compute; reflexivity.
Qed.

(** C1, as the code has it.  For a handle that is neither null nor
    undefined:
    - in v2, whenever the type tag of the handle can be read,
      wrapHTMLElement, wrapElement and wrapNode return a facade over the
      handle, whatever the tag is (there is no failure arm);
    - in part_001 and in src/dom.go, wrapHTMLElement and wrapElement
      return a facade over the handle when the tag is one of the arms, and
      panic in the default arm when it is none of them. *)
Theorem wrapHTMLElement_facade_or_unsupported (σ : Host) (o : Value) :
  nullish o = false ->
  (forall c, V2.elementConstructor σ o = Ok c ->
     (exists f, V2.wrapHTMLElement σ o = Ok (Some f)
                /\ V2.wrapElement σ o = Ok (Some f)
                /\ HTMLElement_Underlying f = o)
     /\ (exists n, V2.wrapNode σ o = Ok (Some n) /\ Node_Underlying n = o))
  /\ (forall c, Get σ o "constructor" = Ok c ->
     (Exists (fun t => c = GlobalGet σ (element_name t)) html_cases ->
        exists f, GopherJS2.wrapHTMLElement σ o = Ok (Some f)
                  /\ GopherJS2.wrapElement σ o = Ok (Some f)
                  /\ HTMLElement_Underlying f = o)
     /\ (Forall (fun t => c <> GlobalGet σ (element_name t)) html_cases ->
        is_panic (GopherJS2.wrapHTMLElement σ o)
        /\ is_panic (GopherJS2.wrapElement σ o)))
  /\ (forall name, GopherJS1.constructor_name σ o = Ok name ->
     (Exists (fun t => name = element_name t) html_cases ->
        exists f, GopherJS1.wrapHTMLElement σ o = Ok (Some f)
                  /\ GopherJS1.wrapElement σ o = Ok (Some f)
                  /\ HTMLElement_Underlying f = o)
     /\ (Forall (fun t => name <> element_name t) html_cases ->
        GopherJS1.wrapHTMLElement σ o
          = Panic (GoPanic ("Unsupported HTML element type: " +:+ name))
        /\ GopherJS1.wrapElement σ o
          = Panic (GoPanic ("Unsupported HTML element type: " +:+ name)))).
Proof.
  intros Hnn. split; [|split].
  - intros c Hc.
    destruct (V2_wrapHTMLElement_total σ o c Hnn Hc) as (f & Hf & Hu).
    assert (V2.wrapElement σ o = Ok (Some f)) as He.
    { unfold V2.wrapElement. by rewrite Hnn, Hc. }
    split; [by exists f|].
    unfold V2.wrapNode. rewrite Hnn, Hc; cbn [bind].
    destruct (decide (c = GlobalGet σ "Text")).
    + by eexists.
    + rewrite He; cbn [bind fmap option_fmap option_map]. by eexists.
  - intros c Hc.
    unfold GopherJS2.wrapElement, GopherJS2.wrapHTMLElement.
    rewrite Hnn, Hc; cbn [bind]. split.
    + intros Hin. destruct (switch_constructor_hit _ _ _ _ Hin) as [t ->].
      eexists; split; [reflexivity|split; [reflexivity|]].
      unfold HTMLElement_Underlying; cbn [html_base].
      by rewrite GopherJS2_layers_base.
    + intros Hout. rewrite (switch_constructor_none _ _ _ _ Hout).
      by destruct (Call σ o "toString" []).
  - intros name Hname.
    unfold GopherJS1.wrapElement, GopherJS1.wrapHTMLElement.
    rewrite Hnn, Hname; cbn [bind]. split.
    + intros Hin. destruct (switch_name_hit _ _ _ Hin) as [t ->].
      by eexists.
    + intros Hout. by rewrite (switch_name_none _ _ _ Hout).
Qed.

Lemma wrapHTMLElement_facade_or_unsupported_witness :
  (exists f, V2.wrapHTMLElement Page.page (Ref Page.svg) = Ok (Some f)
             /\ V2.wrapElement Page.page (Ref Page.svg) = Ok (Some f)
             /\ HTMLElement_Underlying f = Ref Page.svg)
  /\ (exists f, GopherJS2.wrapHTMLElement Page.page (Ref Page.div) = Ok (Some f)
             /\ GopherJS2.wrapElement Page.page (Ref Page.div) = Ok (Some f)
             /\ HTMLElement_Underlying f = Ref Page.div)
  /\ GopherJS1.wrapHTMLElement Page.page (Ref Page.svg)
     = Panic (GoPanic "Unsupported HTML element type: SVGSVGElement").
Proof.
  destruct (wrapHTMLElement_facade_or_unsupported Page.page (Ref Page.svg) eq_refl)
    as (Hv2 & _ & Hg1).
  destruct (wrapHTMLElement_facade_or_unsupported Page.page (Ref Page.div) eq_refl)
    as (_ & Hg2 & _).
  split; [|split].
  - exact (proj1 (Hv2 (Ref 7%nat) eq_refl)).
  - apply (proj1 (Hg2 (Ref 2%nat) eq_refl)).
    apply (bool_decide_unpack _). vm_compute. exact I.
  - apply (proj2 (Hg1 "SVGSVGElement" eq_refl)).
    apply (bool_decide_unpack _). vm_compute. exact I.
Defined.

(** ** Snapshots of host collections *)

Lemma append_loop_ext {A} (body1 body2 : Z -> Res A) n from out :
  (forall k, (k < n)%nat -> body1 (from + Z.of_nat k) = body2 (from + Z.of_nat k)) ->
  append_loop body1 n from out = append_loop body2 n from out.
Proof.
  revert from out. induction n as [|n IH]; intros from out Hext; [done|].
  cbn [append_loop].
  pose proof (Hext 0%nat ltac:(lia)) as H0. rewrite Z.add_0_r in H0.
  rewrite <- H0.
  destruct (body1 from) as [x|e]; cbn [bind]; [|done].
  apply IH. intros k Hk.
  replace (from + 1 + Z.of_nat k) with (from + Z.of_nat (S k)) by lia.
  apply Hext. lia.
Qed.

Lemma collect_ext {A} (body1 body2 : Z -> Res A) N :
  (forall i, 0 <= i < N -> body1 i = body2 i) ->
  collect N body1 = collect N body2.
Proof.
  intros Hext. apply append_loop_ext. intros k Hk. apply Hext. lia.
Qed.

Lemma append_loop_spec {A} (body : Z -> Res A) (g : Z -> A) n from out :
  (forall k, (k < n)%nat -> body (from + Z.of_nat k) = Ok (g (from + Z.of_nat k))) ->
  exists s, append_loop body n from out = Ok s
    /\ contents s = contents out ++ map (fun k => g (from + Z.of_nat k)) (seq 0 n)
    /\ is_nil s = is_nil out && Nat.eqb n 0.
Proof.
  revert from out. induction n as [|n IH]; intros from out Hbody.
  - exists out. cbn. by rewrite app_nil_r, andb_true_r.
  - cbn [append_loop].
    pose proof (Hbody 0%nat ltac:(lia)) as H0. rewrite Z.add_0_r in H0.
    rewrite H0; cbn [bind].
    destruct (IH (from + 1) (append out (g from))) as (s & Hs & Hc & Hn).
    { intros k Hk.
      replace (from + 1 + Z.of_nat k) with (from + Z.of_nat (S k)) by lia.
      apply Hbody. lia. }
    exists s. split; [exact Hs|]. split.
    + rewrite Hc. cbn [seq map]. rewrite Z.add_0_r, <- seq_shift, map_map.
      assert (contents (append out (g from)) = contents out ++ [g from]) as ->
        by by destruct out.
      rewrite <- app_assoc. cbn [app]. do 2 f_equal.
      apply map_ext. intros k. f_equal. lia.
    + rewrite Hn. destruct out; cbn; by rewrite ?andb_false_r.
Qed.

Lemma collect_spec {A} (body : Z -> Res A) (g : Z -> A) N :
  0 <= N ->
  (forall i, 0 <= i < N -> body i = Ok (g i)) ->
  snapshot_of N g (collect N body).
Proof.
  intros HN Hbody.
  destruct (append_loop_spec body g (Z.to_nat N) 0 nil_slice) as (s & Hs & Hc & Hn).
  { intros k Hk. apply Hbody. lia. }
  exists s. split; [exact Hs|]. cbn [contents nil_slice app] in Hc.
  split; [|split].
  - unfold len. rewrite Hc, length_map, length_seq. lia.
  - intros i Hi. rewrite Hc, list_lookup_fmap, lookup_seq_lt by lia.
    cbn. do 2 f_equal. lia.
  - rewrite Hn. cbn. rewrite Nat.eqb_eq. lia.
Qed.

Lemma append_each_indexed {A B} (f : A -> Res B) (l : list A) (g : nat -> B) out :
  (forall k x, l !! k = Some x -> f x = Ok (g k)) ->
  exists s, append_each f l out = Ok s
    /\ contents s = contents out ++ map g (seq 0 (length l))
    /\ is_nil s = is_nil out && Nat.eqb (length l) 0.
Proof.
  revert g out. induction l as [|x l IH]; intros g out Hf.
  - exists out. cbn. by rewrite app_nil_r, andb_true_r.
  - cbn [append_each]. rewrite (Hf 0%nat x eq_refl); cbn [bind].
    destruct (IH (fun k => g (S k)) (append out (g 0%nat))) as (s & Hs & Hc & Hn).
    { intros k y Hk. by apply (Hf (S k)). }
    exists s. split; [exact Hs|]. split.
    + rewrite Hc. cbn [length seq map]. rewrite <- seq_shift, map_map.
      assert (contents (append out (g 0%nat)) = contents out ++ [g 0%nat]) as ->
        by by destruct out.
      by rewrite <- app_assoc.
    + rewrite Hn. destruct out; cbn; by rewrite ?andb_false_r.
Qed.

(** Wrapping the objects of a snapshot, one by one. *)
Lemma append_each_snapshot {A} (wrap : Value -> Res A) N (item : Z -> Value)
    (f : Z -> A) (objs : Res (slice Value)) :
  0 <= N ->
  snapshot_of N item objs ->
  (forall i, 0 <= i < N -> wrap (item i) = Ok (f i)) ->
  snapshot_of N f
    (let! s := objs in append_each wrap (contents s) nil_slice).
Proof.
  intros HN (s0 & -> & Hlen & Hitems & _) Hwrap. cbn [bind].
  unfold len in Hlen.
  destruct (append_each_indexed wrap (contents s0) (fun k => f (Z.of_nat k)) nil_slice)
    as (s & Hs & Hc & Hn).
  { intros k x Hk.
    assert (k < length (contents s0))%nat as Hlt by (eapply lookup_lt_Some; eauto).
    specialize (Hitems (Z.of_nat k) ltac:(lia)).
    rewrite Nat2Z.id, Hk in Hitems. injection Hitems as ->.
    apply Hwrap. lia. }
  exists s. split; [exact Hs|]. cbn [contents nil_slice app] in Hc.
  split; [|split].
  - unfold len. rewrite Hc, length_map, length_seq. exact Hlen.
  - intros i Hi. rewrite Hc, list_lookup_fmap, lookup_seq_lt by lia.
    cbn. do 2 f_equal. lia.
  - rewrite Hn. cbn. rewrite Nat.eqb_eq. lia.
Qed.

(** The objects of a collection, in v2: read by index when the
    constructor is the host's Array, through item otherwise. *)
Lemma V2_nodeListToObjects_snapshot σ o c N (item : Z -> Value) :
  Get σ o "constructor" = Ok c ->
  Get σ o "length" = Ok (Num N) ->
  0 <= N ->
  (forall i, 0 <= i < N ->
     (if decide (c = GlobalGet σ "Array") then Index σ o i
      else Call σ o "item" [Num i]) = Ok (item i)) ->
  snapshot_of N item (V2.nodeListToObjects σ o).
Proof.
  intros Hc Hl HN Hitem.
  unfold V2.nodeListToObjects, V2.arrayToObjects, Length.
  rewrite Hc; cbn [bind].
  destruct (decide (c = GlobalGet σ "Array")); rewrite Hl; cbn [bind Int];
    by apply collect_spec.
Qed.

(** The legacy loop: item and wrap in one pass. *)
Lemma item_loop_snapshot {A} σ o N (item : Z -> Value)
    (wrap : Value -> Res A) (f : Z -> A) :
  Get σ o "length" = Ok (Num N) ->
  0 <= N ->
  (forall i, 0 <= i < N -> Call σ o "item" [Num i] = Ok (item i)) ->
  (forall i, 0 <= i < N -> wrap (item i) = Ok (f i)) ->
  snapshot_of N f
    (let! l := Get σ o "length" in
     let! length := Int l in
     collect length (fun i => let! x := Call σ o "item" [Num i] in wrap x)).
Proof.
  intros Hl HN Hitem Hwrap. rewrite Hl; cbn [bind Int].
  apply collect_spec; [done|]. intros i Hi.
  rewrite (Hitem i Hi); cbn [bind]. by apply Hwrap.
Qed.

(** C6, a collection of length 0: every generation returns the nil slice,
    the null value of the slice type, not an allocated empty slice.  And
    in src/dom.go and part_001 a collection of length 1 whose item is an
    svg element yields no sequence at all: the conversion panics. *)
Lemma snapshot_of_empty_is_nil :
  Get Page.page (Ref Page.no_children) "length" = Ok (Num 0)
  /\ V2.nodeListToNodes Page.page (Ref Page.no_children) = Ok nil_slice
  /\ V2.nodeListToElements Page.page (Ref Page.no_children) = Ok nil_slice
  /\ GopherJS2.nodeListToNodes Page.page (Ref Page.no_children) = Ok nil_slice
  /\ GopherJS1.nodeListToNodes Page.page (Ref Page.no_children) = Ok nil_slice
  /\ is_nil (@nil_slice (option Node)) = true
  /\ Get Page.page (Ref Page.svg_children) "length" = Ok (Num 1)
  /\ is_panic (GopherJS2.nodeListToElements Page.page (Ref Page.svg_children))
  /\ is_panic (GopherJS1.nodeListToElements Page.page (Ref Page.svg_children)).
Proof.
  repeat match goal with |- _ /\ _ => split end; vm_compute; done.
Qed.

(** C6, as the code has it.  For a host collection whose length property
    is N (not negative), whose items can be read and whose items the
    factory wraps without a panic, nodeListToNodes and nodeListToElements
    return a slice of exactly N entries, the i-th being the wrap of the
    host's i-th item; the slice is the nil slice exactly when N is 0.  In
    v2 the i-th item is read by index when the collection's constructor is
    the host's Array and through item(i) otherwise; in part_001 and
    src/dom.go always through item(i). *)
Theorem snapshot_has_every_item (σ : Host) (o : Value) (N : Z) (item : Z -> Value) :
  Get σ o "length" = Ok (Num N) ->
  0 <= N ->
  (forall c, Get σ o "constructor" = Ok c ->
     (forall i, 0 <= i < N ->
        (if decide (c = GlobalGet σ "Array") then Index σ o i
         else Call σ o "item" [Num i]) = Ok (item i)) ->
     (forall f, (forall i, 0 <= i < N -> V2.wrapNode σ (item i) = Ok (f i)) ->
        snapshot_of N f (V2.nodeListToNodes σ o))
     /\ (forall f, (forall i, 0 <= i < N -> V2.wrapElement σ (item i) = Ok (f i)) ->
        snapshot_of N f (V2.nodeListToElements σ o)))
  /\ ((forall i, 0 <= i < N -> Call σ o "item" [Num i] = Ok (item i)) ->
     (forall f, (forall i, 0 <= i < N -> GopherJS2.wrapNode σ (item i) = Ok (f i)) ->
        snapshot_of N f (GopherJS2.nodeListToNodes σ o))
     /\ (forall f, (forall i, 0 <= i < N -> GopherJS2.wrapElement σ (item i) = Ok (f i)) ->
        snapshot_of N f (GopherJS2.nodeListToElements σ o))
     /\ (forall f, (forall i, 0 <= i < N -> GopherJS1.wrapNode σ (item i) = Ok (f i)) ->
        snapshot_of N f (GopherJS1.nodeListToNodes σ o))
     /\ (forall f, (forall i, 0 <= i < N -> GopherJS1.wrapElement σ (item i) = Ok (f i)) ->
        snapshot_of N f (GopherJS1.nodeListToElements σ o))).
Proof.
  intros Hl HN. split.
  - intros c Hc Hitem.
    pose proof (V2_nodeListToObjects_snapshot σ o c N item Hc Hl HN Hitem) as Hobjs.
    split; intros f Hwrap.
    + by apply (append_each_snapshot (V2.wrapNode σ) N item).
    + by apply (append_each_snapshot (V2.wrapElement σ) N item).
  - intros Hitem. repeat split; intros f Hwrap.
    + by apply (item_loop_snapshot σ o N item (GopherJS2.wrapNode σ)).
    + by apply (item_loop_snapshot σ o N item (GopherJS2.wrapElement σ)).
    + by apply (item_loop_snapshot σ o N item (GopherJS1.wrapNode σ)).
    + by apply (item_loop_snapshot σ o N item (GopherJS1.wrapElement σ)).
Qed.

Lemma snapshot_has_every_item_witness :
  snapshot_of 2 Page.two_facades (V2.nodeListToNodes Page.page (Ref Page.children))
  /\ snapshot_of 2 Page.two_facades (GopherJS2.nodeListToNodes Page.page (Ref Page.children)).
Proof.
  assert (forall i : Z, 0 <= i < 2 -> i = 0 \/ i = 1) as Hcases by lia.
  assert (Get Page.page (Ref Page.children) "length" = Ok (Num 2)) as Hlen
    by (vm_compute; reflexivity).
  destruct (snapshot_has_every_item Page.page (Ref Page.children) 2
              (fun i => Page.two_items [Num i]) Hlen ltac:(lia)) as [Hv2 Hg2].
  split.
  - refine (proj1 (Hv2 (Ref 8%nat) _ _) Page.two_facades _).
    + vm_compute; reflexivity.
    + intros i Hi; destruct (Hcases i Hi) as [-> | ->]; vm_compute; reflexivity.
    + intros i Hi; destruct (Hcases i Hi) as [-> | ->]; vm_compute; reflexivity.
  - refine (proj1 (Hg2 _) Page.two_facades _).
    + intros i Hi; destruct (Hcases i Hi) as [-> | ->]; vm_compute; reflexivity.
    + intros i Hi; destruct (Hcases i Hi) as [-> | ->]; vm_compute; reflexivity.
Defined.

(** ** The two shapes of a host collection *)

(** C7, the collection is a host Array with two elements and no item
    method: src/dom.go and part_001 do not look at the constructor, call
    item on it and panic; v2 reads it by index. *)
Lemma legacy_snapshot_of_array_panics :
  Get Page.page (Ref Page.children_array) "constructor"
    = Ok (GlobalGet Page.page "Array")
  /\ GopherJS2.nodeListToNodes Page.page (Ref Page.children_array)
     = Panic HostTypeError
  /\ GopherJS1.nodeListToNodes Page.page (Ref Page.children_array)
     = Panic HostTypeError
  /\ V2.nodeListToNodes Page.page (Ref Page.children_array)
     = V2.nodeListToNodes Page.page (Ref Page.children).
Proof.
  repeat match goal with |- _ /\ _ => split end; vm_compute; reflexivity.
Qed.

Lemma item_loop_without_item {A} σ a N (wrap : Value -> Res A) :
  methods (object_at σ a) !! "item" = None ->
  0 < N ->
  collect N (fun i => let! x := Call σ (Ref a) "item" [Num i] in wrap x)
  = Panic HostTypeError.
Proof.
  intros Hm HN. unfold collect.
  destruct (Z.to_nat N) as [|n] eqn:Hn; [lia|].
  cbn [append_loop Call]. by rewrite Hm.
Qed.

(** C7, as the code has it.  In v2 the converter looks at the
    constructor of the collection: for the host's Array it reads the
    elements by index, otherwise it calls item(i), in both cases for the
    indexes below the length property; an Array and an item collection of
    the same length with the same objects give the same snapshot.  In
    part_001 and src/dom.go there is no such detection: the converter
    always calls item(i), and panics on a non-empty collection that has
    no item method. *)
Theorem snapshot_shape_detection (σ : Host) (o : Value) (c : Value) (N : Z) :
  Get σ o "constructor" = Ok c ->
  Get σ o "length" = Ok (Num N) ->
  (c = GlobalGet σ "Array" ->
     V2.nodeListToObjects σ o = collect N (fun i => Index σ o i))
  /\ (c <> GlobalGet σ "Array" ->
     V2.nodeListToObjects σ o = collect N (fun i => Call σ o "item" [Num i]))
  /\ (forall o' c',
       Get σ o' "constructor" = Ok c' ->
       Get σ o' "length" = Ok (Num N) ->
       c = GlobalGet σ "Array" ->
       c' <> GlobalGet σ "Array" ->
       (forall i, 0 <= i < N -> Index σ o i = Call σ o' "item" [Num i]) ->
       V2.nodeListToObjects σ o = V2.nodeListToObjects σ o'
       /\ V2.nodeListToNodes σ o = V2.nodeListToNodes σ o'
       /\ V2.nodeListToElements σ o = V2.nodeListToElements σ o')
  /\ GopherJS2.nodeListToNodes σ o
     = collect N (fun i => let! x := Call σ o "item" [Num i] in GopherJS2.wrapNode σ x)
  /\ GopherJS1.nodeListToNodes σ o
     = collect N (fun i => let! x := Call σ o "item" [Num i] in GopherJS1.wrapNode σ x)
  /\ (forall a, o = Ref a -> methods (object_at σ a) !! "item" = None -> 0 < N ->
       GopherJS2.nodeListToNodes σ o = Panic HostTypeError
       /\ GopherJS1.nodeListToNodes σ o = Panic HostTypeError).
Proof.
  intros Hc Hl.
  assert (c = GlobalGet σ "Array" ->
          V2.nodeListToObjects σ o = collect N (fun i => Index σ o i)) as Harr.
  { intros Heq. unfold V2.nodeListToObjects, V2.arrayToObjects, Length.
    rewrite Hc; cbn [bind]. destruct (decide (c = GlobalGet σ "Array")); [|done].
    by rewrite Hl. }
  assert (forall o' c', Get σ o' "constructor" = Ok c' ->
          Get σ o' "length" = Ok (Num N) -> c' <> GlobalGet σ "Array" ->
          V2.nodeListToObjects σ o'
          = collect N (fun i => Call σ o' "item" [Num i])) as Hitem.
  { intros o' c' Hc' Hl' Hne. unfold V2.nodeListToObjects.
    rewrite Hc'; cbn [bind]. destruct (decide (c' = GlobalGet σ "Array")); [done|].
    by rewrite Hl'. }
  assert (GopherJS2.nodeListToNodes σ o
          = collect N (fun i => let! x := Call σ o "item" [Num i] in
                                GopherJS2.wrapNode σ x)) as Hg2
    by (unfold GopherJS2.nodeListToNodes; by rewrite Hl).
  assert (GopherJS1.nodeListToNodes σ o
          = collect N (fun i => let! x := Call σ o "item" [Num i] in
                                GopherJS1.wrapNode σ x)) as Hg1
    by (unfold GopherJS1.nodeListToNodes; by rewrite Hl).
  split; [exact Harr|]. split; [by apply Hitem|]. split; [|split; [|split]].
  - intros o' c' Hc' Hl' Heq Hne Hsame.
    assert (V2.nodeListToObjects σ o = V2.nodeListToObjects σ o') as Hobjs.
    { rewrite (Harr Heq), (Hitem o' c' Hc' Hl' Hne). by apply collect_ext. }
    split; [exact Hobjs|].
    unfold V2.nodeListToNodes, V2.nodeListToElements. by rewrite Hobjs.
  - exact Hg2.
  - exact Hg1.
  - intros a -> Hm HN. rewrite Hg2, Hg1.
    split; by apply item_loop_without_item.
Qed.

Lemma snapshot_shape_detection_witness :
  V2.nodeListToObjects Page.page (Ref Page.children_array)
    = V2.nodeListToObjects Page.page (Ref Page.children)
  /\ V2.nodeListToNodes Page.page (Ref Page.children_array)
    = V2.nodeListToNodes Page.page (Ref Page.children)
  /\ V2.nodeListToElements Page.page (Ref Page.children_array)
    = V2.nodeListToElements Page.page (Ref Page.children).
Proof.
  assert (forall i : Z, 0 <= i < 2 -> i = 0 \/ i = 1) as Hcases by lia.
  assert (Get Page.page (Ref Page.children_array) "constructor" = Ok (Ref 3%nat))
    as Hc by (vm_compute; reflexivity).
  assert (Get Page.page (Ref Page.children_array) "length" = Ok (Num 2))
    as Hl by (vm_compute; reflexivity).
  destruct (snapshot_shape_detection Page.page (Ref Page.children_array)
              (Ref 3%nat) 2 Hc Hl) as (_ & _ & Hsame & _).
  apply (Hsame (Ref Page.children) (Ref 8%nat)).
  - vm_compute; reflexivity.
  - vm_compute; reflexivity.
  - vm_compute; reflexivity.
  - vm_compute. discriminate.
  - intros i Hi; destruct (Hcases i Hi) as [-> | ->]; vm_compute; reflexivity.
Defined.

(** ** Event listeners *)

Lemma fresh_listener_not_registered w a typ cap :
  fresh_ids w ->
  mkListener a typ (GoFunc (nextFuncID w)) cap ∉ registered w.
Proof.
  intros [Hreg _] Hin. specialize (Hreg _ _ Hin eq_refl). lia.
Qed.

Lemma fresh_closure_not_live w :
  fresh_ids w -> funcs w !! nextFuncID w = None.
Proof.
  intros [_ Hf]. destruct (funcs w !! nextFuncID w) eqn:E; [|done].
  specialize (Hf (nextFuncID w)). rewrite E in Hf.
  specialize (Hf ltac:(by eexists)). lia.
Qed.

Lemma filter_out_absent (l : Listener) (ls : list Listener) :
  l ∉ ls -> filter (fun x => x <> l) ls = ls.
Proof.
  induction ls as [|x ls IH]; intros Hnin; [done|].
  apply not_elem_of_cons in Hnin as [Hne Hnin].
  rewrite filter_cons_True by congruence. by rewrite IH.
Qed.

Lemma filter_out_last (l : Listener) (ls : list Listener) :
  l ∉ ls -> filter (fun x => x <> l) (ls ++ [l]) = ls.
Proof.
  intros Hnin. rewrite filter_app, filter_out_absent by done.
  rewrite filter_cons_False by (intros H; by apply H).
  by rewrite filter_nil, app_nil_r.
Qed.

(** Delivery looks at the host and at the table of closures only. *)
Lemma deliver_same_closures wrapEvent w w' ls arg :
  host w = host w' -> funcs w = funcs w' ->
  deliver wrapEvent w ls arg = deliver wrapEvent w' ls arg.
Proof.
  intros Hh Hf. induction ls as [|l ls IH]; [done|].
  cbn [deliver]. by rewrite IH, Hh, Hf.
Qed.

(** A closure that no registered listener refers to is never called. *)
Lemma deliver_ignores_unregistered wrapEvent w ls arg id h :
  (forall l, l ∈ ls -> callback l <> GoFunc id) ->
  deliver wrapEvent
    {| host := host w; registered := registered w;
       funcs := <[id := h]> (funcs w); nextFuncID := S (nextFuncID w) |} ls arg
  = deliver wrapEvent w ls arg.
Proof.
  induction ls as [|l ls IH]; intros Hls; [done|].
  cbn [deliver host funcs].
  assert (forall l', l' ∈ ls -> callback l' <> GoFunc id) as Hrest
    by (intros l' Hl'; apply Hls; by right).
  rewrite (IH Hrest).
  destruct (callback l) as [| | | | |id'] eqn:Hcb; try done.
  assert (id <> id') as Hne.
  { intros ->. apply (Hls l); [by left | done]. }
  by rewrite lookup_insert_ne.
Qed.

(** v2: the js.Func that AddEventListener returns is the function it
    registered with the host, and RemoveEventListener with it undoes the
    registration: the host's listener lists and the table of live closures
    are what they were, so every later event leads to the same handler
    invocations as if the listener had never been added. *)
Lemma V2_add_then_remove (w : World) (a : addr) (typ : string) (cap : bool)
    (h : Handler) :
  fresh_ids w ->
  exists f w1 w2,
    V2.AddEventListener w (mkBasicNode (Ref a)) typ cap h = Ok (f, w1)
    /\ registered w1 = registered w ++ [mkListener a typ (V2.Func_Value f) cap]
    /\ funcs w1 !! V2.func_id f = Some h
    /\ V2.RemoveEventListener w1 (mkBasicNode (Ref a)) typ cap f = Ok w2
    /\ registered w2 = registered w
    /\ funcs w2 = funcs w
    /\ host w2 = host w
    /\ forall wrapEvent t typ' arg,
         fire wrapEvent w2 t typ' arg = fire wrapEvent w t typ' arg.
Proof.
  intros Hfresh.
  pose proof (fresh_listener_not_registered w a typ cap Hfresh) as Hnin.
  pose proof (fresh_closure_not_live w Hfresh) as Hdead.
  eexists (V2.mkFunc (nextFuncID w)), _, _.
  unfold V2.AddEventListener, V2.RemoveEventListener, new_closure,
    Call_addEventListener, Call_removeEventListener, host_addEventListener,
    host_removeEventListener, V2.Release, V2.Func_Value.
  cbn [node_value callback nullish registered bind V2.func_id host funcs nextFuncID].
  destruct (decide (mkListener a typ (GoFunc (nextFuncID w)) cap ∈ registered w));
    [contradiction|].
  split; [reflexivity|].
  cbn [registered funcs host nextFuncID].
  rewrite filter_out_last by done. rewrite delete_insert_id by done.
  split; [reflexivity|].
  split; [by rewrite lookup_insert_eq|].
  split; [reflexivity|]. do 3 (split; [reflexivity|]).
  intros wrapEvent t typ' arg. unfold fire. cbn [registered].
  by apply deliver_same_closures.
Qed.

(** part_001: the same, except that the closure stays alive; no
    registered listener refers to it, so it is never called. *)
Lemma GopherJS2_add_then_remove (w : World) (a : addr) (typ : string) (cap : bool)
    (h : Handler) :
  fresh_ids w ->
  exists f w1 w2,
    GopherJS2.AddEventListener w (mkBasicNode (Ref a)) typ cap h = Ok (f, w1)
    /\ registered w1 = registered w ++ [mkListener a typ (GoFunc f) cap]
    /\ funcs w1 !! f = Some h
    /\ GopherJS2.RemoveEventListener w1 (mkBasicNode (Ref a)) typ cap f = Ok w2
    /\ registered w2 = registered w
    /\ host w2 = host w
    /\ forall wrapEvent t typ' arg,
         fire wrapEvent w2 t typ' arg = fire wrapEvent w t typ' arg.
Proof.
  intros Hfresh.
  pose proof (fresh_listener_not_registered w a typ cap Hfresh) as Hnin.
  eexists (nextFuncID w), _, _.
  unfold GopherJS2.AddEventListener, GopherJS2.RemoveEventListener, new_closure,
    Call_addEventListener, Call_removeEventListener, host_addEventListener,
    host_removeEventListener.
  cbn [node_value callback nullish registered bind host funcs nextFuncID].
  destruct (decide (mkListener a typ (GoFunc (nextFuncID w)) cap ∈ registered w));
    [contradiction|].
  split; [reflexivity|].
  cbn [registered funcs host nextFuncID].
  rewrite filter_out_last by done.
  split; [reflexivity|].
  split; [by rewrite lookup_insert_eq|].
  split; [reflexivity|]. do 2 (split; [reflexivity|]).
  intros wrapEvent t typ' arg. unfold fire. cbn [registered].
  apply deliver_ignores_unregistered.
  intros l Hl Hcb. apply list_elem_of_filter in Hl as [_ Hl].
  destruct Hfresh as [Hreg _]. specialize (Hreg l _ Hl Hcb). lia.
Qed.

(** src/dom.go: whatever was registered before, RemoveEventListener
    after AddEventListener leaves the host's listener lists as
    AddEventListener made them. *)
Lemma GopherJS1_remove_removes_nothing (w : World) (a : addr) (typ : string)
    (cap : bool) (h : Handler) :
  fresh_ids w ->
  exists w1 w2,
    GopherJS1.AddEventListener w (mkBasicNode (Ref a)) typ cap h = Ok w1
    /\ registered w1
       = registered w ++ [mkListener a typ (GoFunc (nextFuncID w)) cap]
    /\ GopherJS1.RemoveEventListener w1 (mkBasicNode (Ref a)) typ cap h = Ok w2
    /\ registered w2 = registered w1.
Proof.
  intros Hfresh.
  pose proof (fresh_listener_not_registered w a typ cap Hfresh) as Hnin.
  eexists _, _.
  unfold GopherJS1.AddEventListener, GopherJS1.RemoveEventListener, new_closure,
    Call_addEventListener, Call_removeEventListener, host_addEventListener,
    host_removeEventListener.
  cbn [node_value callback nullish registered bind host funcs nextFuncID].
  destruct (decide (mkListener a typ (GoFunc (nextFuncID w)) cap ∈ registered w));
    [contradiction|].
  split; [reflexivity|]. split; [reflexivity|].
  cbn [registered funcs host nextFuncID].
  split; [reflexivity|]. cbn [registered].
  apply filter_out_absent. intros Hin.
  apply elem_of_app in Hin as [Hin|Hin].
  - destruct Hfresh as [Hreg _]. specialize (Hreg _ _ Hin eq_refl). lia.
  - apply list_elem_of_singleton in Hin. injection Hin as Hid. lia.
Qed.

Lemma quiet_fresh : fresh_ids Page.quiet.
Proof.
  split.
  - intros l id Hl. by apply elem_of_nil in Hl.
  - intros id [h Hh]. cbn [Page.quiet funcs] in Hh. by rewrite lookup_empty in Hh.
Qed.

(** In v2 and in part_001 the listener is removed with the identity that
    AddEventListener returned, and the click invokes nothing. *)
Lemma click_after_remove_is_silent :
  Scenario.click_after_remove_v2 = Ok []
  /\ Scenario.click_after_remove_2 = Ok [].
Proof. split; vm_compute; reflexivity. Qed.

(** C3 on src/dom.go.  AddEventListener returns nothing, so the listener
    is removed with the handler itself.  RemoveEventListener hands the
    host a closure of its own making, which is not the one that was
    registered: the registration stays, and the click that follows
    invokes the handler. *)
Theorem legacy_remove_leaves_listener :
  Scenario.click_after_remove_1
  = Ok [mkInvocation Page.on_click
          (Some (BasicEv (mkBasicEvent (Ref Page.my_event))))].
Proof. vm_compute. reflexivity. Qed.

(** * Further properties of src/v2/dom_go113.go and src/unnamed/part_000 *)

(** ** Loops that fill a slice made beforehand *)

Lemma assign_each_spec {A B} (f : A -> Res B) (xs : list A) (ys : list B)
    (i : nat) (out : list B) :
  Forall2 (fun x y => f x = Ok y) xs ys ->
  (i + length xs <= length out)%nat ->
  assign_each f xs i out
  = Ok (take i out ++ ys ++ drop (i + length xs) out).
Proof.
  intros Hf. revert i out.
  induction Hf as [|x y xs ys Hxy _ IH]; intros i out Hlen.
  - cbn [assign_each length app]. by rewrite Nat.add_0_r, take_drop.
  - cbn [assign_each length] in *. rewrite Hxy; cbn [bind].
    rewrite IH by (rewrite length_insert; lia).
    f_equal.
    rewrite drop_insert_lt by lia.
    replace (S i + length xs)%nat with (i + S (length xs))%nat by lia.
    rewrite (take_S_r (<[i:=y]> out) i y)
      by (apply list_lookup_insert_eq; lia).
    rewrite take_insert_ge by lia.
    by rewrite <- app_assoc.
Qed.

Lemma assign_each_fills {A B} (f : A -> Res B) (xs : list A) (ys : list B) zero :
  Forall2 (fun x y => f x = Ok y) xs ys ->
  assign_each f xs 0%nat (make zero (length xs)) = Ok ys.
Proof.
  intros Hf. rewrite (assign_each_spec f xs ys) by (done || (unfold make; rewrite length_replicate; lia)).
  cbn [take app]. rewrite drop_ge by (unfold make; rewrite length_replicate; lia).
  by rewrite app_nil_r.
Qed.

Lemma assign_each_panics {A B} (f : A -> Res B) (xs : list A) (e : Fault)
    (i : nat) (out : list B) :
  (forall x e', f x = Panic e' -> e' = e) ->
  Exists (fun x => is_panic (f x)) xs ->
  assign_each f xs i out = Panic e.
Proof.
  intros Hone Hex. revert i out.
  induction xs as [|x xs IH]; intros i out; [by apply Exists_nil in Hex|].
  cbn [assign_each].
  destruct (f x) as [y|e'] eqn:Hfx; cbn [bind].
  - apply IH. apply Exists_cons in Hex as [Hx|Hrest]; [|done].
    by rewrite Hfx in Hx.
  - by rewrite (Hone x e' Hfx).
Qed.

Lemma assign_range_spec {B} (f : Z -> Res B) (g : Z -> B) (n i : nat) (out : list B) :
  (forall k, (i <= k < i + n)%nat -> f (Z.of_nat k) = Ok (g (Z.of_nat k))) ->
  (i + n <= length out)%nat ->
  assign_range f n i out
  = Ok (take i out ++ map (fun k => g (Z.of_nat k)) (seq i n) ++ drop (i + n) out).
Proof.
  revert i out. induction n as [|n IH]; intros i out Hf Hlen.
  - cbn [assign_range seq map app]. by rewrite Nat.add_0_r, take_drop.
  - cbn [assign_range]. rewrite (Hf i) by lia; cbn [bind].
    rewrite IH; [|intros k Hk; apply Hf; lia|rewrite length_insert; lia].
    f_equal. cbn [seq map].
    rewrite drop_insert_lt by lia.
    replace (S i + n)%nat with (i + S n)%nat by lia.
    rewrite (take_S_r (<[i:=g (Z.of_nat i)]> out) i (g (Z.of_nat i)))
      by (apply list_lookup_insert_eq; lia).
    rewrite take_insert_ge by lia.
    by rewrite <- app_assoc.
Qed.

(** A loop of [collect] stops at the first iteration that panics. *)
Lemma collect_panics {A} (body : Z -> Res A) (N i : Z) (e : Fault) :
  0 <= i < N ->
  (forall j, 0 <= j < i -> exists x, body j = Ok x) ->
  body i = Panic e ->
  collect N body = Panic e.
Proof.
  intros Hi Hbefore Hbody. unfold collect.
  assert (exists from n, from = 0 /\ n = Z.to_nat N) as (from & n & Hfrom & Hn) by eauto.
  rewrite <- Hn, <- Hfrom.
  assert (from <= i < from + Z.of_nat n) as Hrange by lia.
  assert (forall j, from <= j < i -> exists x, body j = Ok x) as Hok
    by (intros j Hj; apply Hbefore; lia).
  clear Hfrom Hn Hbefore Hi. generalize (@nil_slice A) as out.
  revert from Hrange Hok. induction n as [|n IH]; intros from Hrange Hok out; [lia|].
  cbn [append_loop].
  destruct (decide (from = i)) as [->|Hne].
  - by rewrite Hbody.
  - destruct (Hok from ltac:(lia)) as [x ->]; cbn [bind].
    apply IH; [lia|]. intros j Hj. apply Hok. lia.
Qed.

(** ** Listeners, on a world where something is registered already *)

Lemma busy_fresh : fresh_ids Studio.busy.
Proof.
  split.
  - intros l id Hl Hcb. cbn [Studio.busy registered nextFuncID] in *.
    apply list_elem_of_singleton in Hl. subst l. cbn in Hcb.
    injection Hcb as <-. lia.
  - intros id [h Hh]. cbn [Studio.busy funcs nextFuncID] in *.
    destruct (decide (id = 0%nat)) as [->|Hne]; [lia|].
    by rewrite lookup_singleton_ne in Hh.
Defined.

Lemma V2_add_then_remove_witness :
  exists f w1 w2,
    V2.AddEventListener Studio.busy (mkBasicNode (Ref Studio.div)) "click" false 9%nat
      = Ok (f, w1)
    /\ registered w1
       = registered Studio.busy
         ++ [mkListener Studio.div "click" (V2.Func_Value f) false]
    /\ funcs w1 !! V2.func_id f = Some 9%nat
    /\ V2.RemoveEventListener w1 (mkBasicNode (Ref Studio.div)) "click" false f = Ok w2
    /\ registered w2 = registered Studio.busy
    /\ funcs w2 = funcs Studio.busy
    /\ host w2 = host Studio.busy
    /\ forall wrapEvent t typ' arg,
         fire wrapEvent w2 t typ' arg = fire wrapEvent Studio.busy t typ' arg.
Proof.
  exact (V2_add_then_remove Studio.busy Studio.div "click" false 9%nat busy_fresh).
Defined.

Lemma GopherJS2_add_then_remove_witness :
  exists f w1 w2,
    GopherJS2.AddEventListener Studio.busy (mkBasicNode (Ref Studio.div)) "click" false
      9%nat = Ok (f, w1)
    /\ registered w1
       = registered Studio.busy ++ [mkListener Studio.div "click" (GoFunc f) false]
    /\ funcs w1 !! f = Some 9%nat
    /\ GopherJS2.RemoveEventListener w1 (mkBasicNode (Ref Studio.div)) "click" false f
       = Ok w2
    /\ registered w2 = registered Studio.busy
    /\ host w2 = host Studio.busy
    /\ forall wrapEvent t typ' arg,
         fire wrapEvent w2 t typ' arg = fire wrapEvent Studio.busy t typ' arg.
Proof.
  exact (GopherJS2_add_then_remove Studio.busy Studio.div "click" false 9%nat busy_fresh).
Defined.

Lemma GopherJS1_remove_removes_nothing_witness :
  exists w1 w2,
    GopherJS1.AddEventListener Studio.busy (mkBasicNode (Ref Studio.div)) "click" false
      9%nat = Ok w1
    /\ registered w1
       = registered Studio.busy
         ++ [mkListener Studio.div "click" (GoFunc (nextFuncID Studio.busy)) false]
    /\ GopherJS1.RemoveEventListener w1 (mkBasicNode (Ref Studio.div)) "click" false
      9%nat = Ok w2
    /\ registered w2 = registered w1.
Proof.
  exact (GopherJS1_remove_removes_nothing Studio.busy Studio.div "click" false 9%nat
           busy_fresh).
Defined.

(** The adapter that AddEventListener registers hands the handler the
    event facade that wrapEvent builds: after AddEventListener on a world
    where nothing listens at the object for that event name, firing the
    event there invokes exactly the added handler, once, with the wrap of
    the event object. *)
Theorem V2_added_listener_is_invoked (w : World) (a : addr) (typ : string)
    (cap : bool) (h : Handler) (arg : Value) (ev : option Event) :
  fresh_ids w ->
  filter (fun l => target l = a /\ type_ l = typ) (registered w) = [] ->
  V2.wrapEvent (host w) arg = Ok ev ->
  exists f w1,
    V2.AddEventListener w (mkBasicNode (Ref a)) typ cap h = Ok (f, w1)
    /\ fire V2.wrapEvent w1 a typ arg = Ok [mkInvocation h ev].
Proof.
  intros Hfresh Hnone Hev.
  pose proof (fresh_listener_not_registered w a typ cap Hfresh) as Hnin.
  eexists (V2.mkFunc (nextFuncID w)), _.
  unfold V2.AddEventListener, new_closure, Call_addEventListener,
    host_addEventListener, V2.Func_Value.
  cbn [node_value callback nullish registered bind V2.func_id host funcs nextFuncID].
  destruct (decide (mkListener a typ (GoFunc (nextFuncID w)) cap ∈ registered w));
    [contradiction|].
  split; [reflexivity|].
  unfold fire. cbn [registered]. rewrite filter_app, Hnone.
  rewrite filter_cons_True by done. rewrite filter_nil.
  cbn [app deliver callback funcs host]. rewrite lookup_insert_eq.
  unfold adapter. rewrite Hev. reflexivity.
Qed.

Lemma V2_added_listener_is_invoked_witness :
  exists f w1,
    V2.AddEventListener Studio.busy (mkBasicNode (Ref Studio.div)) "click" false 9%nat
      = Ok (f, w1)
    /\ fire V2.wrapEvent w1 Studio.div "click" Null = Ok [mkInvocation 9%nat None].
Proof.
  apply (V2_added_listener_is_invoked Studio.busy Studio.div "click" false 9%nat
           Null None busy_fresh); vm_compute; reflexivity.
Defined.

(** ** Documents *)

(** wrapDocument and wrapDocumentFragment have no test for a null or
    undefined handle: on one they fail in the tag lookup, where wrapNode
    returns nil.  On a handle whose tag can be read wrapDocument returns a
    document facade over that handle, an htmlDocument exactly when the
    tag is the host's HTMLDocument constructor. *)
Theorem V2_wrapDocument_spec (σ : Host) (o : Value) :
  (nullish o = true ->
     V2.wrapDocument σ o = Panic HostTypeError
     /\ V2.wrapDocumentFragment σ o = Panic HostTypeError
     /\ V2.wrapNode σ o = Ok None)
  /\ (forall c, V2.elementConstructor σ o = Ok c ->
      exists d, V2.wrapDocument σ o = Ok d
        /\ V2.Document_Underlying d = o
        /\ (c = GlobalGet σ "HTMLDocument" <-> d = V2.htmlDocument (mkBasicNode o))
        /\ V2.wrapDocumentFragment σ o = Ok (V2.mkDocumentFragment (mkBasicNode o))).
Proof.
  split.
  - intros Hn. by destruct o.
  - intros c Hc. unfold V2.wrapDocument, V2.wrapDocumentFragment.
    rewrite Hc; cbn [bind].
    destruct (decide (c = GlobalGet σ "HTMLDocument")) as [Heq|Hne].
    + exists (V2.htmlDocument (mkBasicNode o)). by repeat split.
    + exists (V2.document (mkBasicNode o)).
      split; [reflexivity|]. split; [reflexivity|]. split; [|reflexivity].
      split; [by intros ?|discriminate].
Qed.

Lemma V2_wrapDocument_spec_witness :
  (V2.wrapDocument Studio.studio Null = Panic HostTypeError
   /\ V2.wrapDocumentFragment Studio.studio Null = Panic HostTypeError
   /\ V2.wrapNode Studio.studio Null = Ok None)
  /\ exists d, V2.wrapDocument Studio.studio (Ref Studio.doc) = Ok d
       /\ V2.Document_Underlying d = Ref Studio.doc
       /\ (Ref 1%nat = GlobalGet Studio.studio "HTMLDocument"
           <-> d = V2.htmlDocument (mkBasicNode (Ref Studio.doc)))
       /\ V2.wrapDocumentFragment Studio.studio (Ref Studio.doc)
          = Ok (V2.mkDocumentFragment (mkBasicNode (Ref Studio.doc))).
Proof.
  split.
  - exact (proj1 (V2_wrapDocument_spec Studio.studio Null) eq_refl).
  - apply (proj2 (V2_wrapDocument_spec Studio.studio (Ref Studio.doc))).
    vm_compute; reflexivity.
Defined.

(** SetDesignMode and DesignMode are inverse to each other: after
    SetDesignMode(b) on a document object, DesignMode() is b. *)
Theorem V2_DesignMode_round_trip (σ : Host) (a : addr) (b : bool) :
  exists σ',
    V2.htmlDocument_SetDesignMode σ (mkBasicNode (Ref a)) b = Ok σ'
    /\ V2.htmlDocument_DesignMode σ' (mkBasicNode (Ref a)) = Ok b.
Proof.
  unfold V2.htmlDocument_SetDesignMode, V2.htmlDocument_DesignMode.
  cbn [node_value].
  destruct (Set_ σ (Ref a) "designMode" (Str (if b then "on" else "off")))
    as [σ'|e] eqn:Hset; [|discriminate].
  exists σ'. split; [reflexivity|].
  rewrite (Get_after_Set _ _ _ _ _ Hset); cbn [bind JSString].
  by destruct b.
Qed.

(** ** Labels, options and forms *)

(** getLabels and getOptions over the snapshot that nodeListToElements
    makes of the property: when every entry is a label (an option), the
    result is a non-nil slice with one pointer per entry, in order, also
    when the snapshot is empty; when some entry is not, nil entries
    included, the type assertion panics. *)
Theorem V2_getLabels_getOptions (σ : Host) (o ls : Value) (attr : string)
    (s : slice (option Element)) :
  V2.nodeListToElements σ ls = Ok s ->
  (Get σ o "labels" = Ok ls ->
     (forall ptrs,
        Forall2 (fun e l => V2.assert_HTMLLabelElement e = Ok l) (contents s) ptrs ->
        V2.getLabels σ o = Ok (Some (Some <$> ptrs)))
     /\ (Exists (fun e => is_panic (V2.assert_HTMLLabelElement e)) (contents s) ->
        V2.getLabels σ o = Panic TypeAssertionFailed))
  /\ (Get σ o attr = Ok ls ->
     (forall ptrs,
        Forall2 (fun e l => V2.assert_HTMLOptionElement e = Ok l) (contents s) ptrs ->
        V2.getOptions σ o attr = Ok (Some (Some <$> ptrs)))
     /\ (Exists (fun e => is_panic (V2.assert_HTMLOptionElement e)) (contents s) ->
        V2.getOptions σ o attr = Panic TypeAssertionFailed)).
Proof.
  intros Hs.
  assert (forall (asrt : option HTMLElement -> Res Layers),
    (forall e e', asrt e = Panic e' -> e' = TypeAssertionFailed) ->
    (forall ptrs, Forall2 (fun e l => asrt e = Ok l) (contents s) ptrs ->
       (let! out' := assign_each (fun x => let! l := asrt x in Ok (Some l))
                       (contents s) 0%nat (make None (length (contents s))) in
        Ok (Some out')) = Ok (Some (Some <$> ptrs)))
    /\ (Exists (fun e => is_panic (asrt e)) (contents s) ->
       (let! out' := assign_each (fun x => let! l := asrt x in Ok (Some l))
                       (contents s) 0%nat (make None (length (contents s))) in
        Ok (Some out')) = @Panic (slice (option Layers)) TypeAssertionFailed)) as Hgen.
  { intros asrt Hone. split.
    - intros ptrs Hall.
      rewrite (assign_each_fills _ _ (Some <$> ptrs)); [done|].
      induction Hall as [|e l es ls' Hel _ IH]; [constructor|].
      cbn [fmap list_fmap]. constructor; [by rewrite Hel|exact IH].
    - intros Hex.
      rewrite (assign_each_panics _ _ TypeAssertionFailed); [done| |].
      + intros e e'. destruct (asrt e) as [l|e''] eqn:Ha; cbn [bind]; [done|].
        intros [= <-]. by apply (Hone e).
      + eapply Exists_impl; [exact Hex|]. intros e. cbn beta.
        by destruct (asrt e). }
  split; intros Hget.
  - unfold V2.getLabels. rewrite Hget; cbn [bind]. rewrite Hs; cbn [bind].
    apply Hgen. intros e e'. unfold V2.assert_HTMLLabelElement.
    destruct e as [[|[] ?]|]; congruence.
  - unfold V2.getOptions. rewrite Hget; cbn [bind]. rewrite Hs; cbn [bind].
    apply Hgen. intros e e'. unfold V2.assert_HTMLOptionElement.
    destruct e as [[|[] ?]|]; congruence.
Qed.

Lemma V2_getLabels_getOptions_witness :
  V2.getLabels Studio.studio (Ref Studio.input_two_labels)
    = Ok (Some [Some (Embeds (new_el (Ref Studio.label1)));
                Some (Embeds (new_el (Ref Studio.label2)))])
  /\ V2.getLabels Studio.studio (Ref Studio.input_no_labels) = Ok (Some [])
  /\ V2.getLabels Studio.studio (Ref Studio.input_bad_label) = Panic TypeAssertionFailed
  /\ V2.getOptions Studio.studio (Ref Studio.input_two_labels) "labels"
     = Panic TypeAssertionFailed.
Proof.
  assert (V2.nodeListToElements Studio.studio (Ref Studio.two_labels)
          = Ok (Some [Some (Concrete HTMLLabelElement (Embeds (new_el (Ref Studio.label1))));
                      Some (Concrete HTMLLabelElement (Embeds (new_el (Ref Studio.label2))))]))
    as Htwo by (vm_compute; reflexivity).
  assert (V2.nodeListToElements Studio.studio (Ref Studio.no_labels) = Ok None)
    as Hnone by (vm_compute; reflexivity).
  assert (V2.nodeListToElements Studio.studio (Ref Studio.label_and_div)
          = Ok (Some [Some (Concrete HTMLLabelElement (Embeds (new_el (Ref Studio.label1))));
                      Some (Concrete HTMLDivElement (Embeds (new_el (Ref Studio.div))))]))
    as Hbad by (vm_compute; reflexivity).
  split; [|split; [|split]].
  - apply (proj1 (proj1 (V2_getLabels_getOptions Studio.studio
             (Ref Studio.input_two_labels) _ "labels" _ Htwo) eq_refl)
             [Embeds (new_el (Ref Studio.label1)); Embeds (new_el (Ref Studio.label2))]).
    repeat constructor.
  - apply (proj1 (proj1 (V2_getLabels_getOptions Studio.studio
             (Ref Studio.input_no_labels) _ "labels" _ Hnone) eq_refl) []).
    constructor.
  - apply (proj2 (proj1 (V2_getLabels_getOptions Studio.studio
             (Ref Studio.input_bad_label) _ "labels" _ Hbad) eq_refl)).
    cbn [contents]. apply Exists_cons_tl, Exists_cons_hd. exact I.
  - apply (proj2 (proj2 (V2_getLabels_getOptions Studio.studio
             (Ref Studio.input_two_labels) _ "labels" _ Htwo) eq_refl)).
    cbn [contents]. apply Exists_cons_hd. exact I.
Defined.

(** Forms converts the document's forms collection of length N: when
    every item wraps to a form element, the result has N entries, the
    i-th being the form struct over the i-th item, and is the nil slice
    when N is 0; when some item is no form element (or is null) while
    the items before it are, Forms panics in the type assertion. *)
Theorem V2_Forms_spec (σ : Host) (d : BasicNode) (forms : Value) (N : Z)
    (item : Z -> Value) :
  Get σ (node_value d) "forms" = Ok forms ->
  Get σ forms "length" = Ok (Num N) ->
  0 <= N ->
  (forall i, 0 <= i < N -> Call σ forms "item" [Num i] = Ok (item i)) ->
  (forall f,
     (forall i, 0 <= i < N ->
        V2.wrapHTMLElement σ (item i) = Ok (Some (Concrete HTMLFormElement (f i)))) ->
     snapshot_of N f (V2.htmlDocument_Forms σ d))
  /\ (forall f i e,
     0 <= i < N ->
     (forall j, 0 <= j < i ->
        V2.wrapHTMLElement σ (item j) = Ok (Some (Concrete HTMLFormElement (f j)))) ->
     V2.wrapHTMLElement σ (item i) = Ok e ->
     is_panic (V2.assert_HTMLFormElement e) ->
     V2.htmlDocument_Forms σ d = Panic TypeAssertionFailed).
Proof.
  intros Hforms Hlen HN Hitem. unfold V2.htmlDocument_Forms.
  rewrite Hforms; cbn [bind]. rewrite Hlen; cbn [bind Int]. split.
  - intros f Hwrap. apply collect_spec; [done|]. intros i Hi.
    rewrite (Hitem i Hi); cbn [bind]. by rewrite (Hwrap i Hi).
  - intros f i e Hi Hbefore Hwrap Hbad.
    apply (collect_panics _ N i); [done| |].
    + intros j Hj. exists (f j).
      rewrite (Hitem j ltac:(lia)); cbn [bind]. by rewrite (Hbefore j Hj).
    + rewrite (Hitem i Hi); cbn [bind]. rewrite Hwrap; cbn [bind].
      unfold V2.assert_HTMLFormElement in *.
      destruct e as [[|[] ?]|]; done.
Qed.

Lemma V2_Forms_spec_witness :
  snapshot_of 1 (fun _ => Embeds (new_el (Ref Studio.form)))
    (V2.htmlDocument_Forms Studio.studio (mkBasicNode (Ref Studio.doc))).
Proof.
  assert (forall i : Z, 0 <= i < 1 -> i = 0) as Hcases by lia.
  refine (proj1 (V2_Forms_spec Studio.studio (mkBasicNode (Ref Studio.doc))
                   (Ref Studio.forms) 1 (fun i => Studio.items [Ref Studio.form] [Num i])
                   _ _ _ _) _ _).
  - vm_compute; reflexivity.
  - vm_compute; reflexivity.
  - lia.
  - intros i Hi. rewrite (Hcases i Hi). vm_compute; reflexivity.
  - intros i Hi. rewrite (Hcases i Hi). vm_compute; reflexivity.
Defined.

(** ** Token lists of an element *)

(** The token list that Class makes for an element writes and reads the
    element's className: Class().SetString(s) leaves the host exactly as
    SetClass(s) does, and Class().String() then returns s. *)
Theorem V2_Class_is_className (σ : Host) (a : addr) (s : string) :
  let e := mkBasicElement (mkBasicNode (Ref a)) in
  exists tl σ' tl',
    V2.BasicElement_Class σ e = Ok tl
    /\ V2.TokenList_SetString σ tl s = Ok σ'
    /\ V2.BasicElement_SetClass σ e s = Ok σ'
    /\ V2.BasicElement_Class σ' e = Ok tl'
    /\ V2.TokenList_String σ' tl' = Ok s.
Proof.
  intros e. unfold V2.BasicElement_Class, V2.BasicElement_SetClass.
  cbn [e node_value element_node Get bind].
  destruct (Set_ σ (Ref a) "className" (Str s)) as [σ'|err] eqn:Hset; [|discriminate].
  eexists _, σ', _. split; [reflexivity|]. split.
  { unfold V2.TokenList_SetString. cbn [sa o].
    rewrite decide_True by discriminate. exact Hset. }
  split; [reflexivity|]. split; [reflexivity|].
  unfold V2.TokenList_String. cbn [sa o].
  rewrite decide_True by discriminate.
  by rewrite (Get_after_Set _ _ _ _ _ Hset).
Qed.

(** Set writes the tokens joined by single spaces: with a companion
    attribute on an owning object, String after Set(tokens) returns
    exactly that; after Set of no tokens it returns the empty string. *)
Theorem V2_TokenList_Set_then_String (σ : Host) (tl : TokenList) (a : addr)
    (tokens : slice string) :
  sa tl <> "" ->
  o tl = Ref a ->
  exists σ',
    V2.TokenList_Set σ tl tokens = Ok σ'
    /\ V2.TokenList_String σ' tl = Ok (Join (contents tokens) " ")
    /\ (contents tokens = [] -> V2.TokenList_String σ' tl = Ok "").
Proof.
  intros Hsa Ho.
  unfold V2.TokenList_Set, V2.TokenList_SetString, V2.TokenList_String.
  destruct (decide (sa tl <> "")) as [_|]; [|done]. rewrite Ho.
  destruct (Set_ σ (Ref a) (sa tl) (Str (Join (contents tokens) " ")))
    as [σ'|err] eqn:Hset; [|discriminate].
  exists σ'. split; [reflexivity|].
  rewrite (Get_after_Set _ _ _ _ _ Hset); cbn [bind JSString].
  split; [reflexivity|]. by intros ->.
Qed.

Lemma V2_TokenList_Set_then_String_witness :
  exists σ',
    V2.TokenList_Set Studio.studio
      (mkTokenList (Ref Studio.class_list) (Ref Studio.div) "className")
      (Some ["x"; "y"; "z"]) = Ok σ'
    /\ V2.TokenList_String σ'
      (mkTokenList (Ref Studio.class_list) (Ref Studio.div) "className") = Ok "x y z".
Proof.
  destruct (V2_TokenList_Set_then_String Studio.studio
              (mkTokenList (Ref Studio.class_list) (Ref Studio.div) "className")
              Studio.div (Some ["x"; "y"; "z"]) ltac:(discriminate) eq_refl)
    as (σ' & Hset & Hget & _).
  exists σ'. split; [exact Hset | exact Hget].
Defined.

(** Slice has one string per index below the length of the token list,
    the host's string for the item at that index; where the item is
    neither null nor undefined this is the string that Item returns for
    the index. *)
Theorem V2_TokenList_Slice_items (σ : Host) (tl : TokenList) (a : addr)
    (item : list Value -> Value) (N : Z) :
  dtl tl = Ref a ->
  methods (object_at σ a) !! "item" = Some item ->
  Get σ (Ref a) "length" = Ok (Num N) ->
  0 <= N ->
  snapshot_of N (fun i => JSString (item [Num i])) (V2.TokenList_Slice σ tl)
  /\ (forall i, 0 <= i < N -> nullish (item [Num i]) = false ->
        V2.TokenList_Item σ tl i = Ok (JSString (item [Num i]))).
Proof.
  intros Hd Hm Hl HN. split.
  - unfold V2.TokenList_Slice. rewrite Hd, Hl; cbn [bind Int].
    apply collect_spec; [done|]. intros i _.
    unfold Call. by rewrite Hm.
  - intros i _ Hnn. unfold V2.TokenList_Item, V2.toString, Call.
    rewrite Hd, Hm; cbn [bind]. by rewrite Hnn.
Qed.

Lemma V2_TokenList_Slice_items_witness :
  snapshot_of 2 (fun i => JSString (Studio.items [Str "a"; Str "b"] [Num i]))
    (V2.TokenList_Slice Studio.studio
       (mkTokenList (Ref Studio.class_list) (Ref Studio.div) "className"))
  /\ (forall i, 0 <= i < 2 ->
        nullish (Studio.items [Str "a"; Str "b"] [Num i]) = false ->
        V2.TokenList_Item Studio.studio
          (mkTokenList (Ref Studio.class_list) (Ref Studio.div) "className") i
        = Ok (JSString (Studio.items [Str "a"; Str "b"] [Num i]))).
Proof.
  apply (V2_TokenList_Slice_items Studio.studio
           (mkTokenList (Ref Studio.class_list) (Ref Studio.div) "className")
           Studio.class_list (Studio.items [Str "a"; Str "b"]) 2).
  - reflexivity.
  - vm_compute; reflexivity.
  - vm_compute; reflexivity.
  - lia.
Defined.

(** ** Events *)

(** Timestamp splits the milliseconds of the event's timeStamp into
    seconds and nanoseconds without loss: the time it returns is exactly
    timeStamp milliseconds after the epoch, for a negative timeStamp too,
    and its nanosecond part stays below one second in absolute value. *)
Theorem V2_Timestamp_exact (σ : Host) (ev : BasicEvent) (ms : Z) :
  Get σ (event_value ev) "timeStamp" = Ok (Num ms) ->
  exists sec nsec,
    V2.BasicEvent_Timestamp σ ev = Ok (Unix sec nsec)
    /\ UnixNano (Unix sec nsec) = ms * 1000000
    /\ -1000000000 < nsec < 1000000000.
Proof.
  intros Hts. unfold V2.BasicEvent_Timestamp. rewrite Hts; cbn [bind Int].
  eexists _, _. split; [reflexivity|]. cbn [UnixNano].
  pose proof (Z.quot_rem' ms 1000) as Hqr.
  pose proof (Z.rem_bound_abs ms 1000 ltac:(lia)) as Hb.
  split; lia.
Qed.

Lemma V2_Timestamp_exact_witness :
  exists sec nsec,
    V2.BasicEvent_Timestamp Studio.studio (mkBasicEvent (Ref Studio.event))
      = Ok (Unix sec nsec)
    /\ UnixNano (Unix sec nsec) = -1234567 * 1000000
    /\ -1000000000 < nsec < 1000000000.
Proof.
  apply (V2_Timestamp_exact Studio.studio (mkBasicEvent (Ref Studio.event)) (-1234567)).
  vm_compute; reflexivity.
Defined.

(** touchListToTouches makes the slice before it fills it: for a touch
    list of length N it returns a non-nil slice of N touches, the i-th
    over the element at index i, and for an empty list a non-nil empty
    slice (where the node list converters return the nil slice). *)
Theorem V2_touchListToTouches_spec (σ : Host) (a : addr) (N : Z) :
  Get σ (Ref a) "length" = Ok (Num N) ->
  0 <= N ->
  exists out,
    V2.touchListToTouches σ (Ref a) = Ok (Some out)
    /\ Z.of_nat (length out) = N
    /\ forall i, 0 <= i < N ->
         exists x, Index σ (Ref a) i = Ok x
                   /\ out !! Z.to_nat i = Some (Some (V2.mkTouch x)).
Proof.
  intros Hl HN. unfold V2.touchListToTouches, Length.
  rewrite Hl; cbn [bind Int].
  destruct (Z.ltb_spec N 0) as [?|_]; [lia|].
  set (g := fun i : Z =>
    Some (V2.mkTouch (default Undefined (elems (object_at σ a) !! Z.to_nat i)))).
  rewrite (assign_range_spec _ g).
  - cbn [take app bind]. unfold make. rewrite length_replicate.
    rewrite drop_ge by (rewrite length_replicate; lia). rewrite app_nil_r.
    rewrite take_0. cbn [app].
    eexists. split; [reflexivity|]. split.
    + rewrite length_map, length_seq. lia.
    + intros i Hi. cbn [Index].
      destruct (Z.ltb_spec i 0) as [?|_]; [lia|].
      eexists. split; [reflexivity|].
      rewrite list_lookup_fmap, lookup_seq_lt by lia. cbn.
      unfold g. by rewrite Nat2Z.id.
  - intros k _. cbn [Index].
    destruct (Z.ltb_spec (Z.of_nat k) 0) as [?|_]; [lia|]. cbn [bind].
    unfold g. reflexivity.
  - unfold make. rewrite !length_replicate. lia.
Qed.

Lemma V2_touchListToTouches_spec_witness :
  exists out,
    V2.touchListToTouches Studio.studio (Ref Studio.touches) = Ok (Some out)
    /\ Z.of_nat (length out) = 2
    /\ forall i, 0 <= i < 2 ->
         exists x, Index Studio.studio (Ref Studio.touches) i = Ok x
                   /\ out !! Z.to_nat i = Some (Some (V2.mkTouch x)).
Proof.
  apply (V2_touchListToTouches_spec Studio.studio Studio.touches 2).
  - vm_compute; reflexivity.
  - lia.
Defined.

(** ** The most specific facade *)

Lemma switch_constructor_first {T} (name : T -> string) σ cases t :
  t ∈ cases ->
  (forall t', t' ∈ cases -> GlobalGet σ (name t') = GlobalGet σ (name t) -> t' = t) ->
  switch_constructor name σ (GlobalGet σ (name t)) cases = Some t.
Proof.
  induction cases as [|t0 rest IH]; intros Hin Huniq; [by apply elem_of_nil in Hin|].
  cbn [switch_constructor].
  destruct (decide (GlobalGet σ (name t) = GlobalGet σ (name t0))) as [Heq|Hne].
  - f_equal. apply Huniq; [by left | done].
  - apply IH.
    + apply elem_of_cons in Hin as [->|Hin]; [done | exact Hin].
    + intros t' Ht'. apply Huniq. by right.
Qed.

Lemma switch_name_own_name (t : ElementType) :
  t ∈ html_cases -> switch_name element_name (element_name t) html_cases = Some t.
Proof.
  intros Hin. destruct t; try (vm_compute; reflexivity).
  exfalso. unfold html_cases in Hin.
  repeat (apply elem_of_cons in Hin as [Hin|Hin]; [discriminate|]).
  by apply elem_of_nil in Hin.
Qed.

(** A handle whose constructor is the host constructor of one of the
    element arms, and of no other arm, is wrapped as the concrete type
    of that arm over the handle: by wrapHTMLElement and wrapElement of
    v2, and, when the constructor is not the host's Text, by wrapNode.
    In src/dom.go the same holds by the constructor's name. *)
Theorem wrap_is_most_specific (σ : Host) (o : Value) (t : ElementType) :
  nullish o = false ->
  (t ∈ html_cases_v2 ->
   (forall t', t' ∈ html_cases_v2 ->
      GlobalGet σ (element_name t') = GlobalGet σ (element_name t) -> t' = t) ->
   V2.elementConstructor σ o = Ok (GlobalGet σ (element_name t)) ->
   V2.wrapHTMLElement σ o = Ok (Some (Concrete t (V2.layers t (new_el o) o)))
   /\ V2.wrapElement σ o = Ok (Some (Concrete t (V2.layers t (new_el o) o)))
   /\ (GlobalGet σ (element_name t) <> GlobalGet σ "Text" ->
       V2.wrapNode σ o
       = Ok (Some (ElementNode (Concrete t (V2.layers t (new_el o) o))))))
  /\ (t ∈ html_cases ->
      GopherJS1.constructor_name σ o = Ok (element_name t) ->
      GopherJS1.wrapHTMLElement σ o = Ok (Some (Concrete t (Embeds (new_el o))))
      /\ GopherJS1.wrapNode σ o
         = Ok (Some (ElementNode (Concrete t (Embeds (new_el o)))))).
Proof.
  intros Hnn. split.
  - intros Hin Huniq Hc.
    assert (V2.wrapHTMLElement σ o
            = Ok (Some (Concrete t (V2.layers t (new_el o) o)))) as Hh.
    { unfold V2.wrapHTMLElement. rewrite Hnn, Hc; cbn [bind].
      by rewrite (switch_constructor_first _ _ _ _ Hin Huniq). }
    assert (V2.wrapElement σ o
            = Ok (Some (Concrete t (V2.layers t (new_el o) o)))) as He.
    { unfold V2.wrapElement. by rewrite Hnn, Hc. }
    split; [exact Hh|]. split; [exact He|].
    intros Hnt. unfold V2.wrapNode. rewrite Hnn, Hc; cbn [bind].
    rewrite decide_False by done. by rewrite He.
  - intros Hin Hname.
    assert (GopherJS1.wrapHTMLElement σ o
            = Ok (Some (Concrete t (Embeds (new_el o))))) as Hh.
    { unfold GopherJS1.wrapHTMLElement. rewrite Hnn, Hname; cbn [bind].
      by rewrite (switch_name_own_name t Hin). }
    split; [exact Hh|].
    unfold GopherJS1.wrapNode, GopherJS1.wrapElement.
    rewrite Hnn, Hname; cbn [bind]. by rewrite Hh.
Qed.

Lemma wrap_is_most_specific_witness :
  V2.wrapHTMLElement Studio.studio (Ref Studio.label1)
    = Ok (Some (Concrete HTMLLabelElement
                  (V2.layers HTMLLabelElement (new_el (Ref Studio.label1))
                     (Ref Studio.label1))))
  /\ GopherJS1.wrapHTMLElement Studio.studio (Ref Studio.label1)
    = Ok (Some (Concrete HTMLLabelElement (Embeds (new_el (Ref Studio.label1))))).
Proof.
  destruct (wrap_is_most_specific Studio.studio (Ref Studio.label1) HTMLLabelElement
              eq_refl) as [Hv2 Hg1].
  split.
  - apply Hv2.
    + unfold html_cases_v2. repeat constructor.
    + intros t' _ Heq. destruct t'; first [reflexivity | vm_compute in Heq; discriminate].
    + vm_compute; reflexivity.
  - apply Hg1.
    + unfold html_cases. repeat constructor.
    + vm_compute; reflexivity.
Defined.

(** Text nodes.  A handle whose constructor is the host's Text is wrapped
    by wrapNode of v2 and of part_001 as a Text facade over it.  wrapNode
    of src/dom.go has no arm for it: a handle whose constructor is named
    Text ends in the default arm of wrapHTMLElement, and wrapNode
    panics. *)
Theorem wrapNode_of_text (σ : Host) (o : Value) :
  nullish o = false ->
  (V2.elementConstructor σ o = Ok (GlobalGet σ "Text") ->
     V2.wrapNode σ o = Ok (Some (Text (mkBasicNode o))))
  /\ (Get σ o "constructor" = Ok (GlobalGet σ "Text") ->
     GopherJS2.wrapNode σ o = Ok (Some (Text (mkBasicNode o))))
  /\ (GopherJS1.constructor_name σ o = Ok "Text" ->
     GopherJS1.wrapNode σ o = Panic (GoPanic "Unsupported HTML element type: Text")).
Proof.
  intros Hnn. split; [|split].
  - intros Hc. unfold V2.wrapNode. rewrite Hnn, Hc; cbn [bind].
    by rewrite decide_True.
  - intros Hc. unfold GopherJS2.wrapNode. rewrite Hnn, Hc; cbn [bind].
    by rewrite decide_True.
  - intros Hname.
    unfold GopherJS1.wrapNode, GopherJS1.wrapElement, GopherJS1.wrapHTMLElement.
    rewrite Hnn, Hname. vm_compute. reflexivity.
Qed.

Lemma wrapNode_of_text_witness :
  V2.wrapNode Studio.studio (Ref Studio.text)
    = Ok (Some (Text (mkBasicNode (Ref Studio.text))))
  /\ GopherJS2.wrapNode Studio.studio (Ref Studio.text)
    = Ok (Some (Text (mkBasicNode (Ref Studio.text))))
  /\ GopherJS1.wrapNode Studio.studio (Ref Studio.text)
    = Panic (GoPanic "Unsupported HTML element type: Text").
Proof.
  destruct (wrapNode_of_text Studio.studio (Ref Studio.text) eq_refl)
    as (Hv2 & Hg2 & Hg1).
  split; [|split].
  - apply Hv2. vm_compute; reflexivity.
  - apply Hg2. vm_compute; reflexivity.
  - apply Hg1. vm_compute; reflexivity.
Defined.

(** An event handle whose constructor is the host constructor of one of
    the event arms, and of no other arm, is wrapped by wrapEvent as the
    concrete event type of that arm over the handle (a MouseEvent through
    its UIEvent layer); in src/dom.go the same holds by the
    constructor's name. *)
Theorem wrapEvent_is_most_specific (σ : Host) (o : Value) (t : EventType) :
  nullish o = false ->
  (t ∈ event_cases ->
   (forall t', t' ∈ event_cases ->
      GlobalGet σ (event_name t') = GlobalGet σ (event_name t) -> t' = t) ->
   Get σ o "constructor" = Ok (GlobalGet σ (event_name t)) ->
   V2.wrapEvent σ o = Ok (Some (ConcreteEv t (V2.event_layers t (mkBasicEvent o))))
   /\ Event_Underlying (ConcreteEv t (V2.event_layers t (mkBasicEvent o))) = o)
  /\ (GopherJS1.constructor_name σ o = Ok (event_name t) ->
      GopherJS1.wrapEvent σ o = Ok (Some (ConcreteEv t (EvEmbeds (mkBasicEvent o))))).
Proof.
  intros Hnn. split.
  - intros Hin Huniq Hc. split.
    + unfold V2.wrapEvent. rewrite Hnn, Hc; cbn [bind].
      by rewrite (switch_constructor_first _ _ _ _ Hin Huniq).
    + by destruct t.
  - intros Hname. unfold GopherJS1.wrapEvent. rewrite Hnn, Hname; cbn [bind].
    assert (switch_name event_name (event_name t) event_cases = Some t) as ->
      by (destruct t; vm_compute; reflexivity).
    reflexivity.
Qed.

Lemma wrapEvent_is_most_specific_witness :
  V2.wrapEvent Studio.studio (Ref Studio.click)
    = Ok (Some (ConcreteEv MouseEvent (EvEmbedsUI (mkBasicEvent (Ref Studio.click)))))
  /\ GopherJS1.wrapEvent Studio.studio (Ref Studio.click)
    = Ok (Some (ConcreteEv MouseEvent (EvEmbeds (mkBasicEvent (Ref Studio.click))))).
Proof.
  destruct (wrapEvent_is_most_specific Studio.studio (Ref Studio.click) MouseEvent
              eq_refl) as [Hv2 Hg1].
  split.
  - apply Hv2.
    + unfold event_cases. repeat constructor.
    + intros t' _ Heq. destruct t'; first [reflexivity | vm_compute in Heq; discriminate].
    + vm_compute; reflexivity.
  - apply Hg1. vm_compute; reflexivity.
Defined.

(** ** More snapshots *)

(** nodeListToHTMLElements, like the converters for nodes and elements:
    for a collection of length N whose items are read and wrapped without
    a panic, a slice of exactly N entries, the i-th being the wrap of the
    i-th item, and the nil slice exactly when N is 0. *)
Theorem nodeListToHTMLElements_snapshot (σ : Host) (o : Value) (N : Z)
    (item : Z -> Value) :
  Get σ o "length" = Ok (Num N) ->
  0 <= N ->
  (forall c, Get σ o "constructor" = Ok c ->
     (forall i, 0 <= i < N ->
        (if decide (c = GlobalGet σ "Array") then Index σ o i
         else Call σ o "item" [Num i]) = Ok (item i)) ->
     forall f, (forall i, 0 <= i < N -> V2.wrapHTMLElement σ (item i) = Ok (f i)) ->
       snapshot_of N f (V2.nodeListToHTMLElements σ o))
  /\ ((forall i, 0 <= i < N -> Call σ o "item" [Num i] = Ok (item i)) ->
     forall f, (forall i, 0 <= i < N -> GopherJS2.wrapHTMLElement σ (item i) = Ok (f i)) ->
       snapshot_of N f (GopherJS2.nodeListToHTMLElements σ o)).
Proof.
  intros Hl HN. split.
  - intros c Hc Hitem f Hwrap.
    pose proof (V2_nodeListToObjects_snapshot σ o c N item Hc Hl HN Hitem) as Hobjs.
    by apply (append_each_snapshot (V2.wrapHTMLElement σ) N item).
  - intros Hitem f Hwrap.
    by apply (item_loop_snapshot σ o N item (GopherJS2.wrapHTMLElement σ)).
Qed.

Lemma nodeListToHTMLElements_snapshot_witness :
  snapshot_of 2
    (fun i => match V2.wrapHTMLElement Studio.studio
                      (Studio.items [Ref Studio.label1; Ref Studio.div] [Num i]) with
              | Ok e => e
              | Panic _ => None
              end)
    (V2.nodeListToHTMLElements Studio.studio (Ref Studio.label_and_div)).
Proof.
  assert (forall i : Z, 0 <= i < 2 -> i = 0 \/ i = 1) as Hcases by lia.
  assert (Get Studio.studio (Ref Studio.label_and_div) "length" = Ok (Num 2)) as Hlen
    by (vm_compute; reflexivity).
  refine (proj1 (nodeListToHTMLElements_snapshot Studio.studio
                   (Ref Studio.label_and_div) 2
                   (fun i => Studio.items [Ref Studio.label1; Ref Studio.div] [Num i])
                   Hlen ltac:(lia)) (Ref 7%nat) _ _ _ _).
  - vm_compute; reflexivity.
  - intros i Hi; destruct (Hcases i Hi) as [-> | ->]; vm_compute; reflexivity.
  - intros i Hi; destruct (Hcases i Hi) as [-> | ->]; vm_compute; reflexivity.
Defined.

(** ** ImageData *)

Lemma wrap_int_small z : - 2 ^ 31 <= z < 2 ^ 31 -> wrap_int z = z.
Proof.
  intros Hz. unfold wrap_int. rewrite Z.mod_small by lia. lia.
Qed.

(** The index of a pixel inside the image, and of its four channels. *)
Lemma pixel_index_in_bounds w h x y :
  0 <= x < w -> 0 <= y < h -> 4 * (w * h) < 2 ^ 31 ->
  V2.pixel_index w x y = 4 * (y * w + x)
  /\ (forall k, 0 <= k < 4 -> int_add (V2.pixel_index w x y) k = 4 * (y * w + x) + k)
  /\ 0 <= 4 * (y * w + x) /\ 4 * (y * w + x) + 3 < 4 * (w * h).
Proof.
  intros Hx Hy Hsize.
  assert (0 <= y * w) by nia.
  assert (y * w + x < w * h) by nia.
  assert (V2.pixel_index w x y = 4 * (y * w + x)) as Hi.
  { unfold V2.pixel_index, int_mul, int_add.
    rewrite (wrap_int_small (y * w)) by lia.
    rewrite (wrap_int_small (y * w + x)) by lia.
    rewrite wrap_int_small by lia. lia. }
  split; [exact Hi|]. split; [|lia].
  intros k Hk. rewrite Hi. unfold int_add. apply wrap_int_small. lia.
Qed.

Lemma pixel_index_injective w x y x' y' k k' :
  0 <= x < w -> 0 <= x' < w -> 0 <= k < 4 -> 0 <= k' < 4 ->
  4 * (y * w + x) + k = 4 * (y' * w + x') + k' ->
  x = x' /\ y = y' /\ k = k'.
Proof.
  intros Hx Hx' Hk Hk' Heq.
  assert (k = k') as -> by lia.
  assert (y * w + x = y' * w + x') as Hlin by lia.
  assert (y = y') as -> by nia.
  lia.
Qed.

Lemma SetIndex_props σ d i x σ' :
  SetIndex σ (Ref d) i x = Ok σ' ->
  (forall v p, Get σ' v p = Get σ v p)
  /\ length (elems (object_at σ' d)) = length (elems (object_at σ d)).
Proof.
  intros [= <-]. split.
  - intros [| | | |a|] p; try reflexivity.
    unfold Get, object_at; cbn [heap].
    destruct (decide (d = a)) as [->|Hne].
    + by rewrite lookup_insert_eq.
    + by rewrite lookup_insert_ne.
  - unfold object_at at 1; cbn [heap]. rewrite lookup_insert_eq; cbn.
    destruct (Z.ltb i 0); [done|]. by rewrite length_insert.
Qed.

Lemma SetIndex_Index σ d i x σ' :
  SetIndex σ (Ref d) i x = Ok σ' ->
  (0 <= i < Z.of_nat (length (elems (object_at σ d))) ->
     Index σ' (Ref d) i = Ok x)
  /\ (forall j, j <> i -> Index σ' (Ref d) j = Index σ (Ref d) j).
Proof.
  intros [= <-]. split.
  - intros Hi. unfold Index, object_at at 1; cbn [heap].
    rewrite lookup_insert_eq; cbn.
    destruct (Z.ltb_spec i 0) as [?|_]; [lia|].
    rewrite list_lookup_insert_eq by lia. done.
  - intros j Hj. unfold Index, object_at at 1; cbn [heap].
    rewrite lookup_insert_eq; cbn.
    destruct (Z.ltb_spec j 0) as [?|Hj0]; [done|].
    destruct (Z.ltb_spec i 0) as [?|Hi0]; [done|].
    rewrite list_lookup_insert_ne by lia. done.
Qed.

(** One channel written: the properties of every object and the length
    of the data stay, the channel reads back, the others are untouched. *)
Lemma set_channel_spec σ (m : V2.ImageData) d i v :
  Get σ (V2.image_value m) "data" = Ok (Ref d) ->
  exists σ',
    V2.set_channel σ m i v = Ok σ'
    /\ (forall u p, Get σ' u p = Get σ u p)
    /\ length (elems (object_at σ' d)) = length (elems (object_at σ d))
    /\ (0 <= i < Z.of_nat (length (elems (object_at σ d))) ->
          V2.channel σ' m i = Ok (uint8 v))
    /\ (forall j, j <> i -> V2.channel σ' m j = V2.channel σ m j).
Proof.
  intros Hd. unfold V2.set_channel. rewrite Hd; cbn [bind].
  destruct (SetIndex σ (Ref d) i (Num v)) as [σ'|e] eqn:Hset; [|discriminate].
  destruct (SetIndex_props _ _ _ _ _ Hset) as [Hget Hlen].
  destruct (SetIndex_Index _ _ _ _ _ Hset) as [Hsame Hother].
  exists σ'. split; [reflexivity|]. split; [exact Hget|]. split; [exact Hlen|].
  unfold V2.channel. rewrite Hget, Hd; cbn [bind]. split.
  - intros Hi. by rewrite (Hsame Hi).
  - intros j Hj. by rewrite (Hother j Hj).
Qed.

Lemma int_prop_num σ v p n : Get σ v p = Ok (Num n) -> int_prop σ v p = Ok n.
Proof. intros H. unfold int_prop. by rewrite H. Qed.

Lemma geb_false a b : a < b -> Z.geb a b = false.
Proof. intros H. rewrite Z.geb_leb. apply Z.leb_gt. lia. Qed.

Lemma ltb_false a : 0 <= a -> Z.ltb a 0 = false.
Proof. intros H. apply Z.ltb_ge. lia. Qed.

(** What Set does to the data of an image, at a pixel inside it. *)
Lemma ImageData_Set_effect {Color} (Convert : Color -> V2.NRGBA) σ m d w h x y c :
  Get σ (V2.image_value m) "width" = Ok (Num w) ->
  Get σ (V2.image_value m) "height" = Ok (Num h) ->
  Get σ (V2.image_value m) "data" = Ok (Ref d) ->
  4 * (w * h) <= Z.of_nat (length (elems (object_at σ d))) ->
  4 * (w * h) < 2 ^ 31 ->
  0 <= x < w -> 0 <= y < h ->
  exists σ',
    V2.ImageData_Set Color Convert σ m x y c = Ok σ'
    /\ (forall u p, Get σ' u p = Get σ u p)
    /\ V2.channel σ' m (4 * (y * w + x) + 0) = Ok (uint8 (V2.cR (Convert c)))
    /\ V2.channel σ' m (4 * (y * w + x) + 1) = Ok (uint8 (V2.cG (Convert c)))
    /\ V2.channel σ' m (4 * (y * w + x) + 2) = Ok (uint8 (V2.cB (Convert c)))
    /\ V2.channel σ' m (4 * (y * w + x) + 3) = Ok (uint8 (V2.cA (Convert c)))
    /\ (forall j, j < 4 * (y * w + x) \/ 4 * (y * w + x) + 3 < j ->
          V2.channel σ' m j = V2.channel σ m j).
Proof.
  intros Hw Hh Hd Hlen Hsize Hx Hy.
  destruct (pixel_index_in_bounds w h x y Hx Hy Hsize) as (_ & Hk & Hlo & Hhi).
  unfold V2.ImageData_Set.
  rewrite (ltb_false x), (int_prop_num _ _ _ _ Hw) by lia; cbn [bind].
  rewrite (geb_false x w), (ltb_false y), (int_prop_num _ _ _ _ Hh) by lia; cbn [bind].
  rewrite (geb_false y h) by lia.
  rewrite !Hk by lia. set (i := 4 * (y * w + x)) in *.
  destruct (set_channel_spec σ m d (i + 0) (V2.cR (Convert c)) Hd)
    as (σ1 & -> & Hg1 & Hl1 & Hs1 & Ho1); cbn [bind].
  assert (Get σ1 (V2.image_value m) "data" = Ok (Ref d)) as Hd1 by by rewrite Hg1.
  destruct (set_channel_spec σ1 m d (i + 1) (V2.cG (Convert c)) Hd1)
    as (σ2 & -> & Hg2 & Hl2 & Hs2 & Ho2); cbn [bind].
  assert (Get σ2 (V2.image_value m) "data" = Ok (Ref d)) as Hd2 by by rewrite Hg2.
  destruct (set_channel_spec σ2 m d (i + 2) (V2.cB (Convert c)) Hd2)
    as (σ3 & -> & Hg3 & Hl3 & Hs3 & Ho3); cbn [bind].
  assert (Get σ3 (V2.image_value m) "data" = Ok (Ref d)) as Hd3 by by rewrite Hg3.
  destruct (set_channel_spec σ3 m d (i + 3) (V2.cA (Convert c)) Hd3)
    as (σ4 & -> & Hg4 & Hl4 & Hs4 & Ho4).
  exists σ4. split; [reflexivity|].
  split; [intros u p; by rewrite Hg4, Hg3, Hg2, Hg1|].
  split; [rewrite Ho4, Ho3, Ho2 by lia; apply Hs1; lia|].
  split; [rewrite Ho4, Ho3 by lia; apply Hs2; lia|].
  split; [rewrite Ho4 by lia; apply Hs3; lia|].
  split; [apply Hs4; lia|].
  intros j Hj. rewrite Ho4, Ho3, Ho2, Ho1 by lia. reflexivity.
Qed.

(** Reading a pixel inside the image: the four channels at its index. *)
Lemma ImageData_NRGBAAt_inside σ m w h x y :
  Get σ (V2.image_value m) "width" = Ok (Num w) ->
  Get σ (V2.image_value m) "height" = Ok (Num h) ->
  4 * (w * h) < 2 ^ 31 ->
  0 <= x < w -> 0 <= y < h ->
  V2.ImageData_NRGBAAt σ m x y
  = (let! r := V2.channel σ m (4 * (y * w + x) + 0) in
     let! g := V2.channel σ m (4 * (y * w + x) + 1) in
     let! b := V2.channel σ m (4 * (y * w + x) + 2) in
     let! a := V2.channel σ m (4 * (y * w + x) + 3) in
     Ok (V2.mkNRGBA r g b a)).
Proof.
  intros Hw Hh Hsize Hx Hy.
  destruct (pixel_index_in_bounds w h x y Hx Hy Hsize) as (_ & Hk & _).
  unfold V2.ImageData_NRGBAAt.
  rewrite (ltb_false x), (int_prop_num _ _ _ _ Hw) by lia; cbn [bind].
  rewrite (geb_false x w), (ltb_false y), (int_prop_num _ _ _ _ Hh) by lia; cbn [bind].
  rewrite (geb_false y h) by lia.
  by rewrite !Hk by lia.
Qed.

(** Set and NRGBAAt at a pixel inside the image, on an image whose data
    has four channels for each of its width times height pixels: Set
    succeeds, NRGBAAt then returns the colour that was set (as the NRGBA
    model converts it) at that pixel, and what it returned before at every
    other pixel. *)
Theorem V2_ImageData_Set_then_NRGBAAt {Color} (Convert : Color -> V2.NRGBA)
    (σ : Host) (m : V2.ImageData) (d : addr) (w h x y : Z) (c : Color) :
  Get σ (V2.image_value m) "width" = Ok (Num w) ->
  Get σ (V2.image_value m) "height" = Ok (Num h) ->
  Get σ (V2.image_value m) "data" = Ok (Ref d) ->
  4 * (w * h) <= Z.of_nat (length (elems (object_at σ d))) ->
  4 * (w * h) < 2 ^ 31 ->
  0 <= x < w -> 0 <= y < h ->
  V2.is_NRGBA (Convert c) ->
  exists σ',
    V2.ImageData_Set Color Convert σ m x y c = Ok σ'
    /\ V2.ImageData_NRGBAAt σ' m x y = Ok (Convert c)
    /\ (forall x' y', 0 <= x' < w -> 0 <= y' < h -> (x', y') <> (x, y) ->
          V2.ImageData_NRGBAAt σ' m x' y' = V2.ImageData_NRGBAAt σ m x' y').
Proof.
  intros Hw Hh Hd Hlen Hsize Hx Hy (HR & HG & HB & HA).
  destruct (ImageData_Set_effect Convert σ m d w h x y c Hw Hh Hd Hlen Hsize Hx Hy)
    as (σ' & Hset & Hget & Hr & Hg & Hb & Ha & Hother).
  exists σ'. split; [exact Hset|].
  assert (Get σ' (V2.image_value m) "width" = Ok (Num w)) as Hw' by by rewrite Hget.
  assert (Get σ' (V2.image_value m) "height" = Ok (Num h)) as Hh' by by rewrite Hget.
  split.
  - rewrite (ImageData_NRGBAAt_inside σ' m w h x y Hw' Hh' Hsize Hx Hy).
    rewrite Hr, Hg, Hb, Ha; cbn [bind]. unfold uint8.
    rewrite !Z.mod_small by lia. by destruct (Convert c).
  - intros x' y' Hx' Hy' Hne.
    rewrite (ImageData_NRGBAAt_inside σ' m w h x' y' Hw' Hh' Hsize Hx' Hy').
    rewrite (ImageData_NRGBAAt_inside σ m w h x' y' Hw Hh Hsize Hx' Hy').
    assert (forall k, 0 <= k < 4 ->
              4 * (y' * w + x') + k < 4 * (y * w + x)
              \/ 4 * (y * w + x) + 3 < 4 * (y' * w + x') + k) as Hout.
    { intros k Hk.
      destruct (decide (4 * (y' * w + x') + k < 4 * (y * w + x))); [by left|].
      destruct (decide (4 * (y * w + x) + 3 < 4 * (y' * w + x') + k)); [by right|].
      exfalso. apply Hne.
      destruct (pixel_index_injective w x' y' x y k
                  (4 * (y' * w + x') + k - 4 * (y * w + x))) as (-> & -> & _);
        [lia..|done]. }
    by rewrite !Hother by (apply Hout; lia).
Qed.

Lemma V2_ImageData_Set_then_NRGBAAt_witness :
  exists σ',
    V2.ImageData_Set V2.NRGBA id Studio.studio (V2.mkImageData (Ref Studio.image)) 1 0
      (V2.mkNRGBA 10 20 30 255) = Ok σ'
    /\ V2.ImageData_NRGBAAt σ' (V2.mkImageData (Ref Studio.image)) 1 0
       = Ok (V2.mkNRGBA 10 20 30 255)
    /\ (forall x' y', 0 <= x' < 2 -> 0 <= y' < 1 -> (x', y') <> (1, 0) ->
          V2.ImageData_NRGBAAt σ' (V2.mkImageData (Ref Studio.image)) x' y'
          = V2.ImageData_NRGBAAt Studio.studio (V2.mkImageData (Ref Studio.image)) x' y').
Proof.
  apply (V2_ImageData_Set_then_NRGBAAt id Studio.studio
           (V2.mkImageData (Ref Studio.image)) Studio.pixels 2 1 1 0
           (V2.mkNRGBA 10 20 30 255)).
  - vm_compute; reflexivity.
  - vm_compute; reflexivity.
  - vm_compute; reflexivity.
  - vm_compute; discriminate.
  - lia.
  - lia.
  - lia.
  - unfold V2.is_NRGBA, id; cbn; lia.
Defined.

(** Outside of the image (x or y negative, or not below the width or the
    height) NRGBAAt returns the zero colour and Set returns with the host
    as it was; neither touches the data. *)
Theorem V2_ImageData_out_of_bounds {Color} (Convert : Color -> V2.NRGBA)
    (σ : Host) (m : V2.ImageData) (w h x y : Z) (c : Color) :
  Get σ (V2.image_value m) "width" = Ok (Num w) ->
  Get σ (V2.image_value m) "height" = Ok (Num h) ->
  ~ (0 <= x < w /\ 0 <= y < h) ->
  V2.ImageData_NRGBAAt σ m x y = Ok (V2.mkNRGBA 0 0 0 0)
  /\ V2.ImageData_Set Color Convert σ m x y c = Ok σ.
Proof.
  intros Hw Hh Hout. unfold V2.ImageData_NRGBAAt, V2.ImageData_Set.
  destruct (Z.ltb_spec x 0) as [?|Hx0]; [done|].
  rewrite (int_prop_num _ _ _ _ Hw); cbn [bind].
  rewrite Z.geb_leb. destruct (Z.leb_spec w x) as [?|Hxw]; [done|].
  destruct (Z.ltb_spec y 0) as [?|Hy0]; [done|].
  rewrite (int_prop_num _ _ _ _ Hh); cbn [bind].
  rewrite Z.geb_leb. destruct (Z.leb_spec h y) as [?|Hyh]; [done|].
  lia.
Qed.

Lemma V2_ImageData_out_of_bounds_witness :
  V2.ImageData_NRGBAAt Studio.studio (V2.mkImageData (Ref Studio.image)) 2 0
    = Ok (V2.mkNRGBA 0 0 0 0)
  /\ V2.ImageData_Set V2.NRGBA id Studio.studio (V2.mkImageData (Ref Studio.image)) 2 0
       (V2.mkNRGBA 10 20 30 255) = Ok Studio.studio.
Proof.
  apply (V2_ImageData_out_of_bounds id Studio.studio
           (V2.mkImageData (Ref Studio.image)) 2 1 2 0 (V2.mkNRGBA 10 20 30 255)).
  - vm_compute; reflexivity.
  - vm_compute; reflexivity.
  - lia.
Defined.

(** SetNRGBA compares y with the property weight of the image.  On an
    image object that has a width and no such property it never writes a
    pixel: outside of the columns of the image or above it, it returns
    with the host as it was; in every other case, so for every pixel
    inside the image, reading the missing property as an int panics. *)
Theorem V2_ImageData_SetNRGBA_never_writes (σ : Host) (m : V2.ImageData)
    (w x y : Z) (c : V2.NRGBA) :
  Get σ (V2.image_value m) "width" = Ok (Num w) ->
  Get σ (V2.image_value m) "weight" = Ok Undefined ->
  (x < 0 \/ w <= x \/ y < 0 -> V2.ImageData_SetNRGBA σ m x y c = Ok σ)
  /\ (0 <= x < w -> 0 <= y -> V2.ImageData_SetNRGBA σ m x y c = Panic HostTypeError).
Proof.
  intros Hw Hweight. unfold V2.ImageData_SetNRGBA.
  assert (int_prop σ (V2.image_value m) "weight" = Panic HostTypeError) as ->
    by (unfold int_prop; by rewrite Hweight).
  rewrite (int_prop_num _ _ _ _ Hw).
  cbn [bind]. rewrite Z.geb_leb. split.
  - intros Hout.
    destruct (Z.ltb_spec x 0) as [?|Hx0]; [done|].
    destruct (Z.leb_spec w x) as [?|Hxw]; [done|].
    destruct (Z.ltb_spec y 0) as [?|Hy0]; [done|]. lia.
  - intros Hx Hy.
    destruct (Z.ltb_spec x 0) as [?|Hx0]; [lia|].
    destruct (Z.leb_spec w x) as [?|Hxw]; [lia|].
    destruct (Z.ltb_spec y 0) as [?|Hy0]; [lia|]. reflexivity.
Qed.

Lemma V2_ImageData_SetNRGBA_never_writes_witness :
  V2.ImageData_SetNRGBA Studio.studio (V2.mkImageData (Ref Studio.image)) 1 0
    (V2.mkNRGBA 10 20 30 255) = Panic HostTypeError.
Proof.
  apply (proj2 (V2_ImageData_SetNRGBA_never_writes Studio.studio
                  (V2.mkImageData (Ref Studio.image)) 2 1 0 (V2.mkNRGBA 10 20 30 255)
                  ltac:(vm_compute; reflexivity) ltac:(vm_compute; reflexivity)));
    lia.
Defined.

(** ** Attributes *)

Lemma Attributes_loop_spec σ o (item : Z -> Value) (name value : Z -> string) n i acc :
  (forall j, i <= j < i + Z.of_nat n ->
     Call σ o "item" [Num j] = Ok (item j)
     /\ Get σ (item j) "name" = Ok (Str (name j))
     /\ Get σ (item j) "value" = Ok (Str (value j))) ->
  exists m,
    V2.Attributes_loop σ o n i acc = Ok m
    /\ (forall j, i <= j < i + Z.of_nat n ->
          (forall j', j < j' < i + Z.of_nat n -> name j' <> name j) ->
          m !! name j = Some (value j))
    /\ (forall k, (forall j, i <= j < i + Z.of_nat n -> name j <> k) ->
          m !! k = acc !! k)
    /\ (forall k v, m !! k = Some v ->
          acc !! k = Some v
          \/ exists j, i <= j < i + Z.of_nat n /\ name j = k /\ value j = v)
    /\ (forall k, is_Some (acc !! k) -> is_Some (m !! k))
    /\ (forall j, i <= j < i + Z.of_nat n -> is_Some (m !! name j)).
Proof.
  revert i acc. induction n as [|n IH]; intros i acc Hitems.
  - exists acc. split; [reflexivity|]. split; [intros j Hj; lia|].
    split; [done|]. split; [intros k v Hk; by left|].
    split; [done|]. intros j Hj; lia.
  - cbn [V2.Attributes_loop].
    destruct (Hitems i ltac:(lia)) as (Hc & Hn & Hv).
    rewrite Hc; cbn [bind]. rewrite Hn; cbn [bind]. rewrite Hv; cbn [bind JSString].
    destruct (IH (i + 1) (<[name i := value i]> acc))
      as (m & Hm & Hlast & Hkeep & Hfrom & Hstay & Hall).
    { intros j Hj. apply Hitems. lia. }
    exists m. split; [exact Hm|]. split; [|split; [|split; [|split]]].
    + intros j Hj Hlater.
      destruct (decide (j = i)) as [->|Hne].
      * rewrite Hkeep; [by rewrite lookup_insert_eq|].
        intros j' Hj'. apply Hlater. lia.
      * apply Hlast; [lia|]. intros j' Hj'. apply Hlater. lia.
    + intros k Hk. rewrite Hkeep by (intros j Hj; apply Hk; lia).
      apply lookup_insert_ne. apply Hk. lia.
    + intros k v Hkv. destruct (Hfrom k v Hkv) as [Hacc|(j & Hj & Hnj & Hvj)].
      * destruct (decide (name i = k)) as [Heq|Hne].
        -- rewrite Heq, lookup_insert_eq in Hacc. injection Hacc as <-.
           right. exists i. split; [lia|done].
        -- rewrite lookup_insert_ne in Hacc by done. by left.
      * right. exists j. split; [lia|done].
    + intros k Hk. apply Hstay.
      destruct (decide (name i = k)) as [<-|Hne].
      * rewrite lookup_insert_eq. by eexists.
      * by rewrite lookup_insert_ne.
    + intros j Hj. destruct (decide (j = i)) as [->|Hne].
      * apply Hstay. rewrite lookup_insert_eq. by eexists.
      * apply Hall. lia.
Qed.

(** Attributes turns the attribute list of an element into a map from
    names to values: every key of the map is the name of an attribute and
    is mapped to the value of an attribute of that name, every attribute
    name is a key, and a name is mapped to the value of the last attribute
    in the list that has it (so to its value, where names are not
    repeated). *)
Theorem V2_Attributes_spec (σ : Host) (e : BasicElement) (attrs : Value) (N : Z)
    (item : Z -> Value) (name value : Z -> string) :
  Get σ (node_value (element_node e)) "attributes" = Ok attrs ->
  Get σ attrs "length" = Ok (Num N) ->
  0 <= N ->
  (forall i, 0 <= i < N ->
     Call σ attrs "item" [Num i] = Ok (item i)
     /\ Get σ (item i) "name" = Ok (Str (name i))
     /\ Get σ (item i) "value" = Ok (Str (value i))) ->
  exists m : gmap string string,
    V2.BasicElement_Attributes σ e = Ok m
    /\ (forall k v, m !! k = Some v ->
          exists i, 0 <= i < N /\ name i = k /\ value i = v)
    /\ (forall i, 0 <= i < N ->
          (forall j, i < j < N -> name j <> name i) ->
          m !! name i = Some (value i))
    /\ (forall i, 0 <= i < N -> is_Some (m !! name i)).
Proof.
  intros Hattrs Hlen HN Hitems. unfold V2.BasicElement_Attributes.
  rewrite Hattrs; cbn [bind]. rewrite Hlen; cbn [bind Int].
  destruct (Attributes_loop_spec σ attrs item name value (Z.to_nat N) 0 ∅)
    as (m & Hm & Hlast & Hkeep & Hfrom & _ & Hall).
  { intros j Hj. apply Hitems. lia. }
  exists m. split; [exact Hm|]. split; [|split].
  - intros k v Hkv. destruct (Hfrom k v Hkv) as [Hempty|(j & Hj & Hn & Hv)].
    + by rewrite lookup_empty in Hempty.
    + exists j. split; [lia|done].
  - intros i Hi Hlater. apply Hlast; [lia|]. intros j Hj. apply Hlater. lia.
  - intros i Hi. apply Hall. lia.
Qed.

Lemma V2_Attributes_spec_witness :
  exists m : gmap string string,
    V2.BasicElement_Attributes Studio.studio
      (mkBasicElement (mkBasicNode (Ref Studio.div))) = Ok m
    /\ m !! "id" = Some "x"
    /\ m !! "class" = Some "a b".
Proof.
  assert (forall i : Z, 0 <= i < 2 -> i = 0 \/ i = 1) as Hcases by lia.
  destruct (V2_Attributes_spec Studio.studio
              (mkBasicElement (mkBasicNode (Ref Studio.div))) (Ref Studio.attributes) 2
              (fun i => Studio.items [Ref Studio.attr_id; Ref Studio.attr_class] [Num i])
              (fun i => if Z.eqb i 0 then "id" else "class")
              (fun i => if Z.eqb i 0 then "x" else "a b"))
    as (m & Hm & _ & Hlast & _).
  - vm_compute; reflexivity.
  - vm_compute; reflexivity.
  - lia.
  - intros i Hi; destruct (Hcases i Hi) as [-> | ->];
      (split; [|split]); vm_compute; reflexivity.
  - exists m. split; [exact Hm|]. split.
    + apply (Hlast 0); [lia|]. intros j Hj. assert (j = 1) as -> by lia. discriminate.
    + apply (Hlast 1); [lia|]. intros j Hj. lia.
Defined.
